(** * TerminalEditorService: the registry of terminals shown as editor tabs

    A shallow embedding of
    [src/vs/workbench/contrib/terminal/browser/terminalEditorService.ts].

    The class keeps six private fields (the live list, the active index, the
    shutdown flag and three maps keyed by [resource.path]) and mutates them
    from its methods and from the listeners installed by its constructor.
    The fields are a record, the methods are computations in a small monad
    carrying the service, the object store around it and the effects that
    leave the service (notifications fired, calls on editor inputs, requests
    to the off-process backend). *)

From Stdlib Require Import ZArith Ascii String.
From stdpp Require Import base option list strings gmap.

Local Open Scope string_scope.
Local Open Scope list_scope.
Local Open Scope Z_scope.

(** ** Data the service handles *)

(** [URI] of vs/base/common/uri: the service only ever reads [path]. *)
Record URI := mkURI {
  scheme : string;
  authority : string;
  path : string;
  query : string;
  fragment : string
}.

(** [TerminalLocation] of vs/platform/terminal/common/terminal. *)
Inductive TerminalLocation := Panel | Editor.

(** An [ITerminalInstance] is a JavaScript object: [inst_ref] is its address,
    which is what [===] compares; [instanceId] and [resource] are the two
    read-only properties this file reads.  The mutable [target] property
    lives in the store ([targets] below). *)
Record ITerminalInstance := mkInstance {
  inst_ref : nat;
  instanceId : Z;
  inst_resource : URI
}.

(** [DeserializedTerminalEditorInput]: the shape with a [pid] property. *)
Record DeserializedTerminalEditorInput := mkDeserialized {
  des_id : Z;
  des_pid : Z;
  des_resource : URI
}.

(** What the off-process backend hands back for a detached process. *)
Record IProcessDetails := mkProcessDetails {
  pd_id : Z;
  pd_pid : Z
}.

Inductive PersistentProcess :=
| FromDeserialized (d : DeserializedTerminalEditorInput)
| FromBackend (p : option IProcessDetails).

Record IShellLaunchConfig := mkShellLaunchConfig {
  attachPersistentProcess : option PersistentProcess
}.

Record ICreateTerminalOptions := mkCreateTerminalOptions {
  config : option IShellLaunchConfig;
  target : option TerminalLocation
}.

(** First argument of [ITerminalInstanceService.createInstance], which the
    file calls with a shell launch configuration (line 193) and with stored
    creation options (lines 218 and 292). *)
Inductive LaunchArg :=
| LaunchShell (c : IShellLaunchConfig)
| LaunchOptions (o : ICreateTerminalOptions).

(** A [TerminalEditorInput] object: its address, the resource it was built
    for, and the value of its [terminalInstance] property when the service
    reads it. *)
Record TerminalEditorInput := mkInput {
  input_ref : nat;
  input_resource : URI;
  terminalInstance : option ITerminalInstance
}.

(** [IEditorInput] as the listeners test it with [instanceof]. *)
Inductive IEditorInput :=
| TerminalInput (inp : TerminalEditorInput)
| OtherInput (ref : nat).

(** The events of an instance the service listens to, and the [IDisposable]
    returned by such a subscription. *)
Inductive InstanceEvent := OnDidFocus | OnDisposed.

Record IDisposable := mkDisposable {
  sub_ref : nat;
  sub_event : InstanceEvent;
  sub_source : nat
}.

Record ITerminalIdentifier := mkIdentifier {
  workspaceId : string;
  tid_instanceId : option Z
}.

#[global] Instance URI_eq_dec : EqDecision URI.
Proof. solve_decision. Defined.
#[global] Instance TerminalLocation_eq_dec : EqDecision TerminalLocation.
Proof. solve_decision. Defined.
#[global] Instance ITerminalInstance_eq_dec : EqDecision ITerminalInstance.
Proof. solve_decision. Defined.
#[global] Instance TerminalEditorInput_eq_dec : EqDecision TerminalEditorInput.
Proof. solve_decision. Defined.
#[global] Instance InstanceEvent_eq_dec : EqDecision InstanceEvent.
Proof. solve_decision. Defined.
#[global] Instance IDisposable_eq_dec : EqDecision IDisposable.
Proof. solve_decision. Defined.

(** ** The fields of the class (lines 28-34) *)

Record TerminalEditorService := mkService {
  instances : list ITerminalInstance;
  _activeInstanceIndex : Z;
  _isShuttingDown : bool;
  _editorInputs : gmap string TerminalEditorInput;
  _launchConfigs : gmap string ICreateTerminalOptions;
  _instanceDisposables : gmap string (list IDisposable)
}.

(** ** What leaves the service *)

(** The four emitters of lines 38-45. *)
Inductive Notification :=
| DidDisposeInstance (i : ITerminalInstance)
| DidFocusInstance (i : ITerminalInstance)
| DidChangeActiveInstance (i : option ITerminalInstance)
| DidChangeInstances.

Inductive Effect :=
| Fire (n : Notification)
| InputDetachInstance (inp : TerminalEditorInput)
| InputDispose (inp : TerminalEditorInput)
| InputSetGroup (inp : TerminalEditorInput)
| RequestDetachInstance (ws : string) (id : Z).

#[global] Instance Notification_eq_dec : EqDecision Notification.
Proof. solve_decision. Defined.

(** ** The store around the service

    [next_ref] is the next free object address; [targets] holds the mutable
    [target] property of the instances; [listeners] are the subscriptions
    currently attached to instance emitters; [pendingDetach] are the input
    keys of the [requestDetachInstance] promises not yet settled. *)
Record World := mkWorld {
  svc : TerminalEditorService;
  next_ref : nat;
  targets : gmap nat TerminalLocation;
  listeners : list IDisposable;
  pendingDetach : list string
}.

(** ** Collaborators that are not part of this file *)

Record Collaborators := mkCollaborators {
  (** [parseTerminalUri] of terminalUri.ts *)
  parseTerminalUri : URI → ITerminalIdentifier;
  (** [getTerminalUri] of terminalUri.ts *)
  getTerminalUri : string → Z → option string → URI;
  (** [ITerminalInstanceService.createInstance]: given the launch argument,
      the target, the optional resource and the address of the new object,
      the [instanceId] and [resource] of the instance it builds. *)
  createInstance : LaunchArg → option TerminalLocation → option URI → nat → Z * URI
}.

(** ** The monad: state, effects written out, exceptions *)

Inductive Outcome (A : Type) :=
| Returned (a : A)
| Thrown (msg : string).
Arguments Returned {A} a.
Arguments Thrown {A} msg.

Definition M (A : Type) : Type := World → Outcome A * World * list Effect.

Definition ret {A} (a : A) : M A := λ w, (Returned a, w, []).

Definition bind {A B} (c : M A) (k : A → M B) : M B :=
  λ w, match c w with
       | (Returned a, w1, e1) =>
           match k a w1 with (r, w2, e2) => (r, w2, e1 ++ e2) end
       | (Thrown msg, w1, e1) => (Thrown msg, w1, e1)
       end.

Notation "'let*' x ':=' c 'in' k" := (bind c (λ x, k))
  (at level 10, x binder, c at level 100, k at level 200).

Definition throw {A} (msg : string) : M A := λ w, (Thrown msg, w, []).
Definition emit (e : Effect) : M unit := λ w, (Returned tt, w, [e]).
Definition this : M TerminalEditorService := λ w, (Returned (svc w), w, []).
Definition update (f : TerminalEditorService → TerminalEditorService) : M unit :=
  λ w, let 'mkWorld s n t ls pd := w in
       (Returned tt, mkWorld (f s) n t ls pd, []).

Definition outcome {A} (r : Outcome A * World * list Effect) : Outcome A := r.1.1.
Definition world {A} (r : Outcome A * World * list Effect) : World := r.1.2.
Definition effects {A} (r : Outcome A * World * list Effect) : list Effect := r.2.

(** Field setters of the class. *)
Definition set_instances (l : list ITerminalInstance) (s : TerminalEditorService) :=
  let 'mkService _ i b ei lc ids := s in mkService l i b ei lc ids.
Definition set_activeInstanceIndex (i : Z) (s : TerminalEditorService) :=
  let 'mkService l _ b ei lc ids := s in mkService l i b ei lc ids.
Definition set_isShuttingDown (b : bool) (s : TerminalEditorService) :=
  let 'mkService l i _ ei lc ids := s in mkService l i b ei lc ids.
Definition set_editorInputs (ei : gmap string TerminalEditorInput)
    (s : TerminalEditorService) :=
  let 'mkService l i b _ lc ids := s in mkService l i b ei lc ids.
Definition set_launchConfigs (lc : gmap string ICreateTerminalOptions)
    (s : TerminalEditorService) :=
  let 'mkService l i b ei _ ids := s in mkService l i b ei lc ids.
Definition set_instanceDisposables (ids : gmap string (list IDisposable))
    (s : TerminalEditorService) :=
  let 'mkService l i b ei lc _ := s in mkService l i b ei lc ids.

(** ** Array primitives *)

(** [e === instance] on two objects: the same address. *)
Definition same_object (instance e : ITerminalInstance) : bool :=
  Nat.eqb (inst_ref e) (inst_ref instance).

(** [Array.prototype.findIndex]: the first index whose element satisfies the
    predicate, [-1] when there is none. *)
Fixpoint find_index {A} (p : A → bool) (l : list A) : option nat :=
  match l with
  | [] => None
  | x :: l' => if p x then Some 0%nat else S <$> find_index p l'
  end.

Definition findIndex {A} (p : A → bool) (l : list A) : Z :=
  match find_index p l with
  | Some i => Z.of_nat i
  | None => -1
  end.

(** [l.splice(i, 1)] for an index [i] that [findIndex] returned. *)
Definition splice1 {A} (i : Z) (l : list A) : list A :=
  delete (Z.to_nat i) l.

(** [if (i !== -1) { l.splice(i, 1); }] *)
Definition remove_at {A} (i : Z) (l : list A) : list A :=
  if i =? -1 then l else splice1 i l.

(** [l[i]] for an integer [i]: [undefined] outside the array. *)
Definition index {A} (l : list A) (i : Z) : option A :=
  if i <? 0 then None else l !! Z.to_nat i.

(** Truthiness of a [number | undefined] that is never [NaN]. *)
Definition truthy (n : option Z) : bool :=
  match n with
  | Some z => negb (z =? 0)
  | None => false
  end.

(** ** Primitives on the store *)

(** [instance.target = location] *)
Definition set_target (i : ITerminalInstance) (t : TerminalLocation) : M unit :=
  λ w, let 'mkWorld s n ts ls pd := w in
       (Returned tt, mkWorld s n (<[inst_ref i := t]> ts) ls pd, []).

(** [instance.onDidFocus(listener, thisArg)] and [instance.onDisposed(...)]:
    a new subscription, attached to the emitter of the instance. *)
Definition subscribe (ev : InstanceEvent) (i : ITerminalInstance) : M IDisposable :=
  λ w, let 'mkWorld s n t ls pd := w in
       let d := mkDisposable n ev (inst_ref i) in
       (Returned d, mkWorld s (S n) t (ls ++ [d]) pd, []).

(** [dispose(disposables)] of lifecycle.ts: every subscription of the array
    is taken off its emitter. *)
Definition dispose (ds : list IDisposable) : M unit :=
  λ w, let 'mkWorld s n t ls pd := w in
       (Returned tt,
        mkWorld s n t (filter (λ l, sub_ref l ∉ sub_ref <$> ds) ls) pd,
        []).

(** [this._instantiationService.createInstance(TerminalEditorInput, resource,
    instance)]: a new editor input object. *)
Definition new_TerminalEditorInput (resource : URI) (i : ITerminalInstance)
  : M TerminalEditorInput :=
  λ w, let 'mkWorld s n t ls pd := w in
       (Returned (mkInput n resource (Some i)), mkWorld s (S n) t ls pd, []).

(** ** The service *)

Section Service.

Variable env : Collaborators.

(** [this._terminalInstanceService.createInstance(...)]: a new instance
    object, its read-only properties chosen by the collaborator. *)
Definition terminalInstanceService_createInstance
    (a : LaunchArg) (t : option TerminalLocation) (r : option URI)
  : M ITerminalInstance :=
  λ w, let 'mkWorld s n ts ls pd := w in
       let '(id, resource) := createInstance env a t r n in
       (Returned (mkInstance n id resource), mkWorld s (S n) ts ls pd, []).

(** Lines 198-202, the call: the request goes out and its promise, which
    remembers [inputKey], is pending. *)
Definition requestDetachInstance (inputKey ws : string) (id : Z) : M unit :=
  λ w, let 'mkWorld s n t ls pd := w in
       (Returned tt, mkWorld s n t ls (pd ++ [inputKey]),
        [RequestDetachInstance ws id]).

(** Lines 198-202, the [then] callback, run when pending promise [n] is
    fulfilled with [attachPersistentProcess]. *)
Definition requestDetachInstance_then (n : nat) (app : option IProcessDetails)
  : M unit :=
  λ w, let 'mkWorld s ref t ls pd := w in
       match pd !! n with
       | Some inputKey =>
           let createTerminalOptions :=
             mkCreateTerminalOptions
               (Some (mkShellLaunchConfig (Some (FromBackend app))))
               (Some Editor) in
           (Returned tt,
            mkWorld (set_launchConfigs
                       (<[inputKey := createTerminalOptions]> (_launchConfigs s)) s)
                    ref t ls (delete n pd),
            [])
       | None => (Returned tt, w, [])
       end.

(** Lines 142-147. *)
Definition activeInstance (s : TerminalEditorService) : option ITerminalInstance :=
  if (Z.of_nat (length (instances s)) =? 0) || (_activeInstanceIndex s =? -1)
  then None
  else index (instances s) (_activeInstanceIndex s).

(** Lines 153-160. *)
Definition _setActiveInstance (instance : option ITerminalInstance) : M unit :=
  let* _ :=
    match instance with
    | None => update (set_activeInstanceIndex (-1))
    | Some instance =>
        let* s := this in
        update (set_activeInstanceIndex (findIndex (same_object instance) (instances s)))
    end in
  let* s := this in
  emit (Fire (DidChangeActiveInstance (activeInstance s))).

(** Lines 149-151. *)
Definition setActiveInstance (instance : ITerminalInstance) : M unit :=
  _setActiveInstance (Some instance).

(** Lines 228-236. *)
Definition _registerInstance
    (inputKey : string) (input : TerminalEditorInput) (instance : ITerminalInstance)
  : M unit :=
  let* _ := update (λ s, set_editorInputs (<[inputKey := input]> (_editorInputs s)) s) in
  let* d1 := subscribe OnDidFocus instance in
  let* d2 := subscribe OnDisposed instance in
  let* _ := update (λ s, set_instanceDisposables
                           (<[inputKey := [d1; d2]]> (_instanceDisposables s)) s) in
  let* _ := update (λ s, set_instances (instances s ++ [instance]) s) in
  emit (Fire DidChangeInstances).

(** The argument of [getOrCreateResource]: the three shapes its parameter
    type lists, told apart in the code by [URI.isUri], ['pid' in] and
    ['instanceId' in]. *)
Inductive InstanceOrUri :=
| AnInstance (i : ITerminalInstance)
| ADeserialized (d : DeserializedTerminalEditorInput)
| AUri (u : URI).

(** Its result type, [URI | TerminalEditorInput]. *)
Inductive UriOrInput :=
| IsInput (inp : TerminalEditorInput)
| IsUri (u : URI).

(** [URI.isUri(instanceOrUri)] *)
Definition isUri (instanceOrUri : InstanceOrUri) : bool :=
  match instanceOrUri with
  | AUri _ => true
  | _ => false
  end.

(** Line 185. *)
Definition resourceOf (instanceOrUri : InstanceOrUri) : URI :=
  match instanceOrUri with
  | AUri u => u
  | AnInstance i => inst_resource i
  | ADeserialized d => des_resource d
  end.

(** Lines 184-212. *)
Definition getOrCreateResource (instanceOrUri : InstanceOrUri) (isFutureSplit : bool)
  : M UriOrInput :=
  let resource := resourceOf instanceOrUri in
  let inputKey := path resource in
  let* s := this in
  match _editorInputs s !! inputKey with
  | Some cachedEditor => ret (IsInput cachedEditor)
  | None =>
      let* instanceOrUri :=
        match instanceOrUri with
        | ADeserialized d =>
            let* i := terminalInstanceService_createInstance
                        (LaunchShell (mkShellLaunchConfig (Some (FromDeserialized d))))
                        (Some Editor) None in
            ret (AnInstance i)
        | AUri u =>
            let terminalIdentifier := parseTerminalUri env u in
            let* _ :=
              match tid_instanceId terminalIdentifier with
              | Some id =>
                  if truthy (Some id)
                  then requestDetachInstance inputKey (workspaceId terminalIdentifier) id
                  else ret tt
              | None => ret tt
              end in
            ret (AUri u)
        | AnInstance i => ret (AnInstance i)
        end in
      match instanceOrUri with
      | AnInstance i =>
          let* _ := set_target i Editor in
          let* input := new_TerminalEditorInput resource i in
          let* _ := _registerInstance inputKey input i in
          ret (IsInput input)
      | _ => ret (IsUri (getTerminalUri env "dfsldjfkdslfsjdflksdjf" 2 (Some "fake")))
      end
  end.

(** Lines 214-222. *)
Definition getInstance (resource : URI) : M (option ITerminalInstance) :=
  let* s := this in
  match _launchConfigs s !! path resource with
  | Some launchConfig =>
      let* instance := terminalInstanceService_createInstance
                         (LaunchOptions launchConfig) (target launchConfig)
                         (Some resource) in
      ret (Some instance)
  | None => ret None
  end.

(** Lines 224-226. *)
Definition getInput (s : TerminalEditorService) (resource : URI)
  : option TerminalEditorInput :=
  _editorInputs s !! path resource.

(** Lines 268-287. *)
Definition detachInstance (instance : ITerminalInstance) : M unit :=
  let inputKey := path (inst_resource instance) in
  let* s := this in
  let editorInput := _editorInputs s !! inputKey in
  let* _ := match editorInput with
            | Some e => emit (InputDetachInstance e)
            | None => ret tt
            end in
  let* _ := update (λ s, set_editorInputs (delete inputKey (_editorInputs s)) s) in
  let* s := this in
  let instanceIndex := findIndex (same_object instance) (instances s) in
  let* _ := update (λ s, set_instances (remove_at instanceIndex (instances s)) s) in
  let* s := this in
  let* _ := if negb (_isShuttingDown s)
            then match editorInput with
                 | Some e => emit (InputDispose e)
                 | None => ret tt
                 end
            else ret tt in
  let* s := this in
  let disposables := _instanceDisposables s !! inputKey in
  let* _ := update (λ s, set_instanceDisposables
                           (delete inputKey (_instanceDisposables s)) s) in
  let* _ := match disposables with
            | Some ds => dispose ds
            | None => ret tt
            end in
  emit (Fire DidChangeInstances).

(** Lines 289-299. *)
Definition resolveResource (resource : URI) : M TerminalEditorInput :=
  let* s := this in
  match _launchConfigs s !! path resource with
  | Some launchConfig =>
      let* instance := terminalInstanceService_createInstance
                         (LaunchOptions launchConfig) (target launchConfig)
                         (Some resource) in
      let* input := new_TerminalEditorInput resource instance in
      let* _ := _registerInstance (path resource) input instance in
      ret input
  | None => throw "could not resolve resource"
  end.

(** Lines 255-266, [activeEditor] being [this._editorService.activeEditor]. *)
Definition detachActiveEditorInstance (activeEditor : option IEditorInput)
  : M ITerminalInstance :=
  match activeEditor with
  | Some (TerminalInput inp) =>
      match terminalInstance inp with
      | Some instance =>
          let* _ := detachInstance instance in
          ret instance
      | None => throw "Terminal is already detached"
      end
  | _ => throw "Active editor is not a terminal"
  end.

(** ** The listeners installed by the constructor (lines 64-101) *)

(** Line 64. *)
Definition onWillShutdown : M unit :=
  update (set_isShuttingDown true).

(** Lines 65-72, [activeEditor] being [this._editorService.activeEditor]. *)
Definition onDidActiveEditorChange (activeEditor : option IEditorInput) : M unit :=
  match activeEditor with
  | Some (TerminalInput inp) =>
      match terminalInstance inp with
      | Some instance =>
          let* _ := emit (InputSetGroup inp) in
          _setActiveInstance (Some instance)
      | None => ret tt
      end
  | _ => ret tt
  end.

(** Lines 104-106. *)
Definition _getActiveTerminalEditors (visibleEditors : list IEditorInput)
  : list IEditorInput :=
  List.filter
    (λ e, match e with
          | TerminalInput inp => truthy (instanceId <$> terminalInstance inp)
          | OtherInput _ => false
          end)
    visibleEditors.

(** Lines 73-88, [visibleEditors] being [this._editorService.visibleEditors]. *)
Definition onDidVisibleEditorsChange (visibleEditors : list IEditorInput) : M unit :=
  let* s := this in
  let knownIds := instanceId <$> instances s in
  let terminalEditors := _getActiveTerminalEditors visibleEditors in
  let unknownEditor :=
    List.find
      (λ input,
         let inputId := match input with
                        | TerminalInput inp => instanceId <$> terminalInstance inp
                        | OtherInput _ => None
                        end in
         match inputId with
         | None => false
         | Some inputId => negb (bool_decide (inputId ∈ knownIds))
         end)
      terminalEditors in
  match unknownEditor with
  | Some (TerminalInput unknownEditor) =>
      match terminalInstance unknownEditor with
      | Some instance =>
          let* _ := update (λ s, set_editorInputs
                                   (<[path (inst_resource instance) := unknownEditor]>
                                      (_editorInputs s)) s) in
          update (λ s, set_instances (instances s ++ [instance]) s)
      | None => ret tt
      end
  | _ => ret tt
  end.

(** Line 89: the service listens to its own dispose emitter, so a fire of
    [_onDidDisposeInstance] runs [detachInstance] before outside listeners. *)
Definition fire_onDidDisposeInstance (instance : ITerminalInstance) : M unit :=
  let* _ := detachInstance instance in
  emit (Fire (DidDisposeInstance instance)).

(** An instance fires one of its two events.  Every listener the service has
    attached to that emitter (lines 231-232) forwards the event to the
    emitter of the service of the same kind. *)
Definition forward (ev : InstanceEvent) (instance : ITerminalInstance) : M unit :=
  match ev with
  | OnDidFocus => emit (Fire (DidFocusInstance instance))
  | OnDisposed => fire_onDidDisposeInstance instance
  end.

Fixpoint times (n : nat) (c : M unit) : M unit :=
  match n with
  | O => ret tt
  | S n => let* _ := c in times n c
  end.

Definition attached (ev : InstanceEvent) (instance : ITerminalInstance)
    (ls : list IDisposable) : list IDisposable :=
  filter (λ d, sub_event d = ev ∧ sub_source d = inst_ref instance) ls.

Definition instance_fires (ev : InstanceEvent) (instance : ITerminalInstance) : M unit :=
  λ w, times (length (attached ev instance (listeners w))) (forward ev instance) w.

(** Lines 93-101. *)
Definition onDidCloseEditor (editor : IEditorInput) : M unit :=
  match editor with
  | TerminalInput inp =>
      match terminalInstance inp with
      | Some instance =>
          let* s := this in
          let instanceIndex := findIndex (same_object instance) (instances s) in
          update (λ s, set_instances (remove_at instanceIndex (instances s)) s)
      | None => ret tt
      end
  | OtherInput _ => ret tt
  end.

End Service.

(** The service as the field initialisers of lines 28-34 leave it. *)
Definition initialService : TerminalEditorService :=
  mkService [] (-1) false ∅ ∅ ∅.

Definition initialWorld : World :=
  mkWorld initialService 0 ∅ [] [].

(** Calls of [getOrCreateResource] one after the other, [isFutureSplit] left
    at its default. *)
Fixpoint getOrCreateResource_seq (env : Collaborators) (args : list InstanceOrUri)
  : M (list UriOrInput) :=
  match args with
  | [] => ret []
  | a :: args =>
      let* r := getOrCreateResource env a false in
      let* rs := getOrCreateResource_seq env args in
      ret (r :: rs)
  end.


(** How many times an object occurs in the live list. *)
Definition occurrences (instance : ITerminalInstance) (l : list ITerminalInstance) : nat :=
  length (List.filter (same_object instance) l).

(** The sessions that the entries of the editor-input map show, one for each
    identity that has an entry. *)
Definition sessions_of (m : gmap string TerminalEditorInput) : list ITerminalInstance :=
  omap (λ entry, terminalInstance entry.2) (map_to_list m).

(** The live list is a rearrangement of the sessions that the entries of the
    editor-input map show, one for each key.  By itself this does not keep
    one session from being shown by the entries of two keys. *)
Definition one_entry_per_identity (s : TerminalEditorService) : Prop :=
  instances s ≡ₚ sessions_of (_editorInputs s).

(** ** Concrete collaborators, to run the service on examples

    Terminal resources have the path [/workspaceId/instanceId]. *)
Module Sample.

Fixpoint split_slash (cur : string) (s : string) : list string :=
  match s with
  | EmptyString => [cur]
  | String c s' =>
      if Ascii.eqb c "/"%char
      then cur :: split_slash EmptyString s'
      else split_slash (cur +:+ String c EmptyString) s'
  end.

Fixpoint parse_digits (acc : Z) (s : string) : option Z :=
  match s with
  | EmptyString => Some acc
  | String c s' =>
      let n := Z.of_nat (Ascii.nat_of_ascii c) - 48 in
      if (0 <=? n) && (n <=? 9) then parse_digits (10 * acc + n) s' else None
  end.

Definition parseInt (s : string) : option Z :=
  match s with
  | EmptyString => None
  | _ => parse_digits 0 s
  end.

Definition parseTerminalUri (resource : URI) : ITerminalIdentifier :=
  match split_slash EmptyString (path resource) with
  | _ :: ws :: id :: _ => mkIdentifier ws (parseInt id)
  | _ :: ws :: [] => mkIdentifier ws None
  | _ => mkIdentifier EmptyString None
  end.

Definition digit (n : Z) : string :=
  String (Ascii.ascii_of_nat (Z.to_nat (48 + n))) EmptyString.

Fixpoint show_digits (fuel : nat) (n : Z) : string :=
  match fuel with
  | O => digit (n mod 10)
  | S fuel =>
      if n <? 10 then digit n else show_digits fuel (n / 10) +:+ digit (n mod 10)
  end.

Definition show (n : Z) : string := show_digits 20 n.

Definition getTerminalUri (ws : string) (id : Z) (title : option string) : URI :=
  mkURI "vscode-terminal" "" ("/" +:+ ws +:+ "/" +:+ show id) ""
        (default "" title).

(** The new instance takes the resource it is given; without one it is
    numbered after its address. *)
Definition createInstance (a : LaunchArg) (t : option TerminalLocation)
    (r : option URI) (ref : nat) : Z * URI :=
  let id := Z.of_nat ref + 1000 in
  (id, default (getTerminalUri "w" id None) r).

Definition env : Collaborators :=
  mkCollaborators parseTerminalUri getTerminalUri createInstance.

Definition term5 : URI := getTerminalUri "window1" 5 None.
Definition term6 : URI := getTerminalUri "window1" 6 None.

(** Two sessions created elsewhere (for instance by the terminal service). *)
Definition a : ITerminalInstance := mkInstance 100 5 term5.
Definition b : ITerminalInstance := mkInstance 101 6 term6.

(** Both sessions are opened as editors and the first one is made active. *)
Definition two_tabs_first_active : M unit :=
  let* _ := getOrCreateResource env (AnInstance a) false in
  let* _ := getOrCreateResource env (AnInstance b) false in
  setActiveInstance a.

(** One session is opened as an editor; [input_a] is the editor input that
    the call creates. *)
Definition one_tab : M UriOrInput :=
  getOrCreateResource env (AnInstance a) false.

Definition input_a : TerminalEditorInput := mkInput 0 term5 (Some a).

(** A terminal of another window is opened by its resource, the backend
    answers the detach request, and the resource is resolved twice. *)
Definition resolved_twice : M unit :=
  let* _ := getOrCreateResource env (AUri term5) false in
  let* _ := requestDetachInstance_then 0 (Some (mkProcessDetails 5 4242)) in
  let* _ := resolveResource env term5 in
  let* _ := resolveResource env term5 in
  ret tt.


(** A terminal editor that the editor service opened by itself (the split
    command), showing a session the registry has not seen. *)
Definition split_editor : TerminalEditorInput := mkInput 200 term6 (Some b).


(** A deserialized terminal editor input, kept from a previous window, and
    the session that [createInstance] makes for it in the empty store. *)
Definition deserialized6 : DeserializedTerminalEditorInput :=
  mkDeserialized 6 4242 term6.

Definition restored : ITerminalInstance :=
  mkInstance 0 1000 (getTerminalUri "w" 1000 None).

(** The deserialized input is opened, then the session made for it is
    opened as an instance. *)
Definition restored_opened_twice : M unit :=
  let* _ := getOrCreateResource env (ADeserialized deserialized6) false in
  let* _ := getOrCreateResource env (AnInstance restored) false in
  ret tt.


End Sample.

(** ** The rest of the class *)

(** What the service asks of the editor framework: the calls on
    [IEditorService.openEditor] and [IEditorGroupsService.activateGroup]. *)
Inductive EditorActivation := ACTIVATE | RESTORE | PRESERVE.

Record IEditorOptions := mkEditorOptions {
  pinned : bool;
  forceReload : bool;
  preserveFocus : option bool;
  activation : option EditorActivation
}.

Inductive PreferredGroup :=
| SIDE_GROUP
| InGroup (g : nat).

Inductive FrameworkCall :=
| ActivateGroup (g : nat)
| OpenEditorInput (editor : TerminalEditorInput) (options : IEditorOptions)
                  (targetGroup : option PreferredGroup)
| OpenResourceEditorInput (resource : URI) (options : IEditorOptions)
                          (targetGroup : option PreferredGroup).

(** The argument of [openEditor], [URI | ITerminalInstance]. *)
Inductive UriOrInstance :=
| OfUri (u : URI)
| OfInstance (i : ITerminalInstance).

Definition asInstanceOrUri (x : UriOrInstance) : InstanceOrUri :=
  match x with
  | OfUri u => AUri u
  | OfInstance i => AnInstance i
  end.

(** [instance.target], read from the store. *)
Definition get_target (i : ITerminalInstance) : M (option TerminalLocation) :=
  λ w, (Returned (targets w !! inst_ref i), w, []).

(** [for (const d of values) { dispose(d); }] *)
Fixpoint dispose_each (values : list (list IDisposable)) : M unit :=
  match values with
  | [] => ret tt
  | d :: values => let* _ := dispose d in dispose_each values
  end.

(** Lines 59-63, the callback that runs when the service itself is disposed.
    The arrays are visited in the order [map_to_list] gives; a [dispose]
    only takes listeners off, so the order does not show in the result. *)
Definition constructor_toDisposable : M unit :=
  let* s := this in
  dispose_each ((map_to_list (_instanceDisposables s)).*2).

Section Framework.

Variable env : Collaborators.

(** The [group] property of an editor input, as the service reads it. *)
Variable group : TerminalEditorInput → option nat.

(** Lines 162-182, up to the call on the editor service, which is the
    result ([console.log] left out). *)
Definition openEditor (resourceOrEditor : UriOrInstance) (sideGroup : bool)
    (isFutureSplit : option bool) : M FrameworkCall :=
  let* resource := getOrCreateResource env (asInstanceOrUri resourceOrEditor) false in
  let editorOptions := mkEditorOptions true true None None in
  let targetGroup := if sideGroup then Some SIDE_GROUP else None in
  match resource with
  | IsInput input => ret (OpenEditorInput input editorOptions targetGroup)
  | IsUri u => ret (OpenResourceEditorInput u editorOptions targetGroup)
  end.

(** Lines 242-253: the result is the new instance together with the calls
    made on the editor framework, in order. *)
Definition splitInstance (instanceToSplit : ITerminalInstance)
    (shellLaunchConfig : IShellLaunchConfig)
  : M (ITerminalInstance * list FrameworkCall) :=
  let* t := get_target instanceToSplit in
  let* s := this in
  let activated :=
    match t with
    | Some Editor =>
        match _editorInputs s !! path (inst_resource instanceToSplit) with
        | Some input =>
            match group input with
            | Some g => [ActivateGroup g]
            | None => []
            end
        | None => []
        end
    | _ => []
    end in
  let* instance := terminalInstanceService_createInstance env
                     (LaunchShell shellLaunchConfig) (Some Editor) None in
  let* opened := openEditor (OfInstance instance) false (Some true) in
  ret (instance, activated ++ [opened]).

(** Lines 301-318.  Reading [group] of a missing editor input is a
    [TypeError]. *)
Definition revealActiveEditor (preserveFocus : option bool)
  : M (option FrameworkCall) :=
  let* s := this in
  match activeInstance s with
  | None => ret None
  | Some instance =>
      match _editorInputs s !! path (inst_resource instance) with
      | Some editorInput =>
          ret (Some (OpenEditorInput editorInput
                       (mkEditorOptions true true preserveFocus (Some PRESERVE))
                       (InGroup <$> group editorInput)))
      | None => throw "TypeError"
      end
  end.

(** One entry into the service: a method call or a notification that one of
    the constructor's listeners receives. *)
Inductive Request :=
| GetOrCreateResource (x : InstanceOrUri) (isFutureSplit : bool)
| ResolveResource (resource : URI)
| GetInstance (resource : URI)
| OpenEditor (x : UriOrInstance) (sideGroup : bool) (isFutureSplit : option bool)
| SplitInstance (i : ITerminalInstance) (c : IShellLaunchConfig)
| RevealActiveEditor (preserveFocus : option bool)
| DetachInstance (i : ITerminalInstance)
| DetachActiveEditorInstance (activeEditor : option IEditorInput)
| SetActiveInstance (i : ITerminalInstance)
| WillShutdown
| ActiveEditorChanged (activeEditor : option IEditorInput)
| VisibleEditorsChanged (visibleEditors : list IEditorInput)
| EditorClosed (editor : IEditorInput)
| InstanceFires (ev : InstanceEvent) (i : ITerminalInstance)
| DetachRequestAnswered (n : nat) (attachPersistentProcess : option IProcessDetails)
| ServiceDisposed.

(** An event of an instance after the service has been disposed: the
    listener of line 89 has been removed with the others that the
    constructor registered, so a forwarded event only reaches the emitter of
    the service and its outside listeners. *)
Definition forward_disposed (ev : InstanceEvent) (instance : ITerminalInstance)
  : M unit :=
  match ev with
  | OnDidFocus => emit (Fire (DidFocusInstance instance))
  | OnDisposed => emit (Fire (DidDisposeInstance instance))
  end.

Definition instance_fires_disposed (ev : InstanceEvent) (instance : ITerminalInstance)
  : M unit :=
  λ w, times (length (attached ev instance (listeners w)))
             (forward_disposed ev instance) w.

(** One request, [disposed] telling whether [dispose()] has run on the
    service.  [dispose()] runs the callback of lines 59-63 and removes the
    listeners registered with [this._register] at lines 64, 65, 73, 89 and
    93, once: afterwards the notifications of the lifecycle and editor
    services reach nothing, a second [dispose()] does nothing, and the
    methods, the promise callback of lines 198-202 and the subscriptions on
    instances work as before. *)
Definition perform (disposed : bool) (r : Request) : M unit :=
  match r with
  | GetOrCreateResource x b => let* _ := getOrCreateResource env x b in ret tt
  | ResolveResource u => let* _ := resolveResource env u in ret tt
  | GetInstance u => let* _ := getInstance env u in ret tt
  | OpenEditor x sideGroup b => let* _ := openEditor x sideGroup b in ret tt
  | SplitInstance i c => let* _ := splitInstance i c in ret tt
  | RevealActiveEditor p => let* _ := revealActiveEditor p in ret tt
  | DetachInstance i => detachInstance i
  | DetachActiveEditorInstance e => let* _ := detachActiveEditorInstance e in ret tt
  | SetActiveInstance i => setActiveInstance i
  | WillShutdown => if disposed then ret tt else onWillShutdown
  | ActiveEditorChanged e => if disposed then ret tt else onDidActiveEditorChange e
  | VisibleEditorsChanged es =>
      if disposed then ret tt else onDidVisibleEditorsChange es
  | EditorClosed e => if disposed then ret tt else onDidCloseEditor e
  | InstanceFires ev i =>
      if disposed then instance_fires_disposed ev i else instance_fires ev i
  | DetachRequestAnswered n p => requestDetachInstance_then n p
  | ServiceDisposed => if disposed then ret tt else constructor_toDisposable
  end.

Definition is_ServiceDisposed (r : Request) : bool :=
  match r with
  | ServiceDisposed => true
  | _ => false
  end.

(** The store after a series of requests; a request that throws ends there
    and the next one starts from the store it left. *)
Fixpoint perform_from (disposed : bool) (rs : list Request) (w : World) : World :=
  match rs with
  | [] => w
  | r :: rs =>
      perform_from (disposed || is_ServiceDisposed r) rs (world (perform disposed r w))
  end.

(** The same for a service that has not been disposed yet. *)
Definition perform_all (rs : list Request) (w : World) : World :=
  perform_from false rs w.

(** The effects of a series of requests, in order. *)
Fixpoint effects_from (disposed : bool) (rs : list Request) (w : World)
  : list Effect :=
  match rs with
  | [] => []
  | r :: rs =>
      effects (perform disposed r w)
        ++ effects_from (disposed || is_ServiceDisposed r) rs
             (world (perform disposed r w))
  end.

Definition effects_all (rs : list Request) (w : World) : list Effect :=
  effects_from false rs w.

End Framework.

(** The session that the active editor shows, if it is a terminal editor
    with a session. *)
Definition shown_session (activeEditor : option IEditorInput)
  : option ITerminalInstance :=
  match activeEditor with
  | Some (TerminalInput inp) => terminalInstance inp
  | _ => None
  end.

(** The first visible terminal editor whose session has a non-zero
    [instanceId] that is not among [knownIds]. *)
Fixpoint first_unknown (knownIds : list Z) (visibleEditors : list IEditorInput)
  : option (TerminalEditorInput * ITerminalInstance) :=
  match visibleEditors with
  | [] => None
  | TerminalInput inp :: rest =>
      match terminalInstance inp with
      | Some i =>
          if negb (instanceId i =? 0) && negb (bool_decide (instanceId i ∈ knownIds))
          then Some (inp, i)
          else first_unknown knownIds rest
      | None => first_unknown knownIds rest
      end
  | OtherInput _ :: rest => first_unknown knownIds rest
  end.

(** The elementary writes on the fields of the service. *)
Inductive change (s : TerminalEditorService) : TerminalEditorService → Prop :=
| registered (inputKey : string) (input : TerminalEditorInput)
             (disposables : list IDisposable) (instance : ITerminalInstance) :
    change s (mkService (instances s ++ [instance]) (_activeInstanceIndex s)
                (_isShuttingDown s)
                (<[inputKey := input]> (_editorInputs s))
                (_launchConfigs s)
                (<[inputKey := disposables]> (_instanceDisposables s)))
| adopted (inputKey : string) (input : TerminalEditorInput)
          (instance : ITerminalInstance) :
    change s (mkService (instances s ++ [instance]) (_activeInstanceIndex s)
                (_isShuttingDown s)
                (<[inputKey := input]> (_editorInputs s))
                (_launchConfigs s) (_instanceDisposables s))
| detached (inputKey : string) (l : list ITerminalInstance) :
    change s (mkService l (_activeInstanceIndex s) (_isShuttingDown s)
                (delete inputKey (_editorInputs s))
                (_launchConfigs s)
                (delete inputKey (_instanceDisposables s)))
| closed (l : list ITerminalInstance) :
    change s (mkService l (_activeInstanceIndex s) (_isShuttingDown s)
                (_editorInputs s) (_launchConfigs s) (_instanceDisposables s))
| activated (i : Z) :
    -1 ≤ i →
    change s (mkService (instances s) i (_isShuttingDown s)
                (_editorInputs s) (_launchConfigs s) (_instanceDisposables s))
| configured (inputKey : string) (c : ICreateTerminalOptions) :
    target c = Some Editor →
    change s (mkService (instances s) (_activeInstanceIndex s) (_isShuttingDown s)
                (_editorInputs s)
                (<[inputKey := c]> (_launchConfigs s))
                (_instanceDisposables s)).

(** What holds of the fields whatever the service is asked: the stored
    index is -1 or not negative, subscriptions are only kept for identities
    that have an editor input, and every stored launch configuration targets
    the editor. *)
Definition well_formed (s : TerminalEditorService) : Prop :=
  -1 ≤ _activeInstanceIndex s
  ∧ dom (_instanceDisposables s) ⊆ dom (_editorInputs s)
  ∧ (∀ key c, _launchConfigs s !! key = Some c → target c = Some Editor).

Definition is_WillShutdown (r : Request) : bool :=
  match r with
  | WillShutdown => true
  | _ => false
  end.

(** What one request does to the fields: the shutdown notification, when
    it is heard, sets the flag, every other request goes through elementary
    writes. *)
Definition step (sets_flag : bool) (s s' : TerminalEditorService) : Prop :=
  if sets_flag then s' = set_isShuttingDown true s else rtc change s s'.

(** The requests that arrive before the service is disposed. *)
Fixpoint heard (rs : list Request) : list Request :=
  match rs with
  | [] => []
  | r :: rs => if is_ServiceDisposed r then [] else r :: heard rs
  end.



(** The requests that are not calls of a method or of the promise
    callback: the notifications of the lifecycle service, of the editor
    service and of sessions, and [dispose()]. *)
Definition is_notification (r : Request) : bool :=
  match r with
  | WillShutdown | ActiveEditorChanged _ | VisibleEditorsChanged _
  | EditorClosed _ | InstanceFires _ _ | ServiceDisposed => true
  | _ => false
  end.

(** A call of [fire] on the focus or dispose emitter of the service. *)
Definition is_forwarded (e : Effect) : Prop :=
  ∃ i, e = Fire (DidFocusInstance i) ∨ e = Fire (DidDisposeInstance i).

(** ['pid' in instanceOrUri] *)
Definition hasPid (instanceOrUri : InstanceOrUri) : bool :=
  match instanceOrUri with
  | ADeserialized _ => true
  | _ => false
  end.

(** Every editor input of the map is stored under the resource path of the
    session it shows. *)
Definition keyed_by_resource_path (s : TerminalEditorService) : Prop :=
  ∀ key input,
    _editorInputs s !! key = Some input →
    ∃ i, terminalInstance input = Some i ∧ path (inst_resource i) = key.

(** The identities of the sessions of the live list. *)
Definition identities (s : TerminalEditorService) : list string :=
  (λ i, path (inst_resource i)) <$> instances s.

(** An effect other than a call of [dispose] on an editor input. *)
Definition not_dispose (e : Effect) : Prop :=
  match e with
  | InputDispose _ => False
  | _ => True
  end.

(** A computation that, run while the shutdown flag is set, disposes no
    editor input and leaves the flag set. *)
Definition quiet {A} (c : M A) : Prop :=
  ∀ w, _isShuttingDown (svc w) = true →
       Forall not_dispose (effects (c w))
       ∧ _isShuttingDown (svc (world (c w))) = true.

(** No editor input has a group assigned. *)
Definition no_group : TerminalEditorInput → option nat := λ _, None.

(** * Proofs *)

(** Unfolds one level of the monad and of the store primitives. *)
Ltac run :=
  cbv [bind ret this update emit throw set_target new_TerminalEditorInput
       _registerInstance subscribe dispose requestDetachInstance
       terminalInstanceService_createInstance outcome world effects];
  cbn.

Section Lookups.

Context {A : Type}.
Implicit Types (p : A → bool) (l : list A).

Lemma find_index_Some p l i :
  find_index p l = Some i →
  (i < length l)%nat ∧ ∃ x, l !! i = Some x ∧ p x = true.
Proof.
  revert i. induction l as [|y l IH]; intros i; cbn; [done|].
  destruct (p y) eqn:Hy.
  - intros [= <-]. split; [lia|]. by exists y.
  - destruct (find_index p l) as [j|]; [|done].
    intros [= <-]. destruct (IH j eq_refl) as (Hlt & x & Hx & Hp).
    split; [lia|]. by exists x.
Qed.

Lemma find_index_None p l :
  find_index p l = None ↔ List.filter p l = [].
Proof.
  induction l as [|y l IH]; cbn; [done|].
  destruct (p y); [done|].
  destruct (find_index p l); cbn; [|tauto].
  split; [done|]. intros H. apply IH in H. done.
Qed.

Lemma findIndex_range p l : -1 ≤ findIndex p l < Z.of_nat (length l).
Proof.
  unfold findIndex. destruct (find_index p l) as [i|] eqn:H; [|lia].
  apply find_index_Some in H as [? _]. lia.
Qed.

Lemma findIndex_absent p l :
  findIndex p l = -1 ↔ List.filter p l = [].
Proof.
  unfold findIndex. rewrite <- find_index_None.
  destruct (find_index p l); split; intros; try done; lia.
Qed.

Lemma remove_at_absent p l :
  List.filter p l = [] → remove_at (findIndex p l) l = l.
Proof.
  intros H. apply findIndex_absent in H. unfold remove_at. by rewrite H.
Qed.

(** Removing at the index [findIndex] found takes out one element that
    satisfies the predicate, the first one. *)
Lemma remove_at_found p l i :
  find_index p l = Some i →
  remove_at (findIndex p l) l = delete i l
  ∧ List.filter p l = match l !! i with
                      | Some x => x :: List.filter p (delete i l)
                      | None => []
                      end.
Proof.
  intros H. unfold remove_at, findIndex, splice1. rewrite H.
  destruct (Z.eqb_spec (Z.of_nat i) (-1)) as [?|_]; [lia|].
  rewrite Nat2Z.id. split; [done|].
  revert i H. induction l as [|y l IH]; intros i; cbn; [done|].
  destruct (p y) eqn:Hy.
  - intros [= <-]. done.
  - destruct (find_index p l) as [j|]; [|done].
    intros [= <-]. cbn. rewrite Hy. by apply IH.
Qed.

(** [findIndex] is a linear search: nothing before the index it returns
    satisfies the predicate. *)
Lemma find_index_first p l i :
  find_index p l = Some i →
  ∀ j x, (j < i)%nat → l !! j = Some x → p x = false.
Proof.
  revert i. induction l as [|y l IH]; intros i; cbn; [done|].
  destruct (p y) eqn:Hy.
  - intros [= <-] j x Hj. lia.
  - destruct (find_index p l) as [k|]; [|done].
    intros [= <-] [|j] x Hj; cbn.
    + by intros [= <-].
    + apply (IH k eq_refl). lia.
Qed.

End Lookups.

(** ** getOrCreateResource *)

Section GetOrCreate.

Variable env : Collaborators.

(** A cached editor input is returned as it is: nothing is written, nothing
    is fired. *)
Lemma getOrCreateResource_hit a split w cachedEditor :
  _editorInputs (svc w) !! path (resourceOf a) = Some cachedEditor →
  getOrCreateResource env a split w = (Returned (IsInput cachedEditor), w, []).
Proof.
  intros H. unfold getOrCreateResource, bind at 1, this at 1.
  by rewrite H.
Qed.



End GetOrCreate.


(** ** The active session *)

Lemma activeInstance_index s :
  activeInstance s = None
  ∨ activeInstance s = index (instances s) (_activeInstanceIndex s).
Proof.
  unfold activeInstance.
  destruct (_ || _); [by left|by right].
Qed.

(** What one call of [detachInstance] does, all at once. *)
Lemma detachInstance_run instance w :
  let inputKey := path (inst_resource instance) in
  let editorInput := _editorInputs (svc w) !! inputKey in
  let disposables := _instanceDisposables (svc w) !! inputKey in
  detachInstance instance w
  = (Returned tt,
     mkWorld
       (mkService
          (remove_at (findIndex (same_object instance) (instances (svc w)))
                     (instances (svc w)))
          (_activeInstanceIndex (svc w))
          (_isShuttingDown (svc w))
          (delete inputKey (_editorInputs (svc w)))
          (_launchConfigs (svc w))
          (delete inputKey (_instanceDisposables (svc w))))
       (next_ref w) (targets w)
       (match disposables with
        | Some ds => filter (λ l, sub_ref l ∉ sub_ref <$> ds) (listeners w)
        | None => listeners w
        end)
       (pendingDetach w),
     match editorInput with
     | Some e =>
         InputDetachInstance e
           :: (if _isShuttingDown (svc w) then [] else [InputDispose e])
     | None => []
     end ++ [Fire DidChangeInstances]).
Proof.
  destruct w as [[l i sd ei lc ids] n t ls pd]. cbn zeta.
  unfold detachInstance. run.
  destruct (ei !! _); run; destruct sd; run; destruct (ids !! _); run; done.
Qed.

(** [detachInstance] writes the two maps and the list, never the index. *)
Lemma detachInstance_service instance w :
  svc (world (detachInstance instance w))
  = mkService
      (remove_at (findIndex (same_object instance) (instances (svc w)))
                 (instances (svc w)))
      (_activeInstanceIndex (svc w))
      (_isShuttingDown (svc w))
      (delete (path (inst_resource instance)) (_editorInputs (svc w)))
      (_launchConfigs (svc w))
      (delete (path (inst_resource instance)) (_instanceDisposables (svc w))).
Proof. by rewrite detachInstance_run. Qed.

(** C2 (amended). The activeInstance getter yields either absent or the
    element of the live list at the stored index.  detachInstance never
    writes the stored index: when it removes the session at the active index,
    the index stays where it was and the getter yields the session that
    followed the removed one in the list, absent only when there was none. *)
Theorem C2_activeInstance_after_detach (w : World) (instance : ITerminalInstance) :
  let s := svc w in
  let s' := svc (world (detachInstance instance w)) in
  (activeInstance s = None
   ∨ activeInstance s = index (instances s) (_activeInstanceIndex s))
  ∧ (activeInstance s' = None
     ∨ activeInstance s' = index (instances s') (_activeInstanceIndex s'))
  ∧ _activeInstanceIndex s' = _activeInstanceIndex s
  ∧ (findIndex (same_object instance) (instances s) = _activeInstanceIndex s →
     _activeInstanceIndex s ≠ -1 →
     activeInstance s' = index (instances s) (_activeInstanceIndex s + 1)).
Proof.
  cbn zeta. split; [apply activeInstance_index|].
  split; [apply activeInstance_index|].
  rewrite detachInstance_service. split; [done|].
  intros Hfound Hactive. unfold activeInstance. cbn.
  rewrite Hfound. unfold findIndex in Hfound.
  destruct (find_index _ _) as [k|] eqn:Hk; [|congruence].
  apply find_index_Some in Hk as [Hlt _].
  rewrite <- Hfound. unfold remove_at, splice1, index.
  destruct (Z.eqb_spec (Z.of_nat k) (-1)) as [?|_]; [lia|].
  destruct (Z.ltb_spec (Z.of_nat k) 0) as [?|_]; [lia|].
  destruct (Z.ltb_spec (Z.of_nat k + 1) 0) as [?|_]; [lia|].
  rewrite Nat2Z.id. replace (Z.to_nat (Z.of_nat k + 1)) with (S k) by lia.
  rewrite (list_lookup_delete_ge (instances (svc w)) k k) by lia.
  destruct (Z.eqb_spec (Z.of_nat (length (delete k (instances (svc w))))) 0)
    as [Hempty|_]; [|done].
  cbn. symmetry. apply lookup_ge_None.
  rewrite length_delete in Hempty by (by apply lookup_lt_is_Some_2). lia.
Qed.

Lemma C2_activeInstance_after_detach_witness :
  let w := world (Sample.two_tabs_first_active initialWorld) in
  let s := svc w in
  let s' := svc (world (detachInstance Sample.a w)) in
  findIndex (same_object Sample.a) (instances s) = _activeInstanceIndex s
  ∧ _activeInstanceIndex s ≠ -1
  ∧ activeInstance s' = index (instances s) (_activeInstanceIndex s + 1).
Proof.
  cbn zeta.
  assert (H1 : findIndex (same_object Sample.a)
                 (instances (svc (world (Sample.two_tabs_first_active initialWorld))))
               = _activeInstanceIndex
                   (svc (world (Sample.two_tabs_first_active initialWorld))))
    by (vm_compute; reflexivity).
  assert (H2 : _activeInstanceIndex
                 (svc (world (Sample.two_tabs_first_active initialWorld))) ≠ -1)
    by (vm_compute; discriminate).
  split; [exact H1|]. split; [exact H2|].
  destruct (C2_activeInstance_after_detach
              (world (Sample.two_tabs_first_active initialWorld)) Sample.a)
    as (_ & _ & _ & H).
  exact (H H1 H2).
Defined.

(** C2, as stated, fails: the first of two sessions is active and is
    detached; the stored index is still 0, not -1, and the getter yields the
    other session. *)
Lemma C2_counterexample :
  let w := world (Sample.two_tabs_first_active initialWorld) in
  let s' := svc (world (detachInstance Sample.a w)) in
  activeInstance (svc w) = Some Sample.a
  ∧ _activeInstanceIndex s' = 0
  ∧ activeInstance s' = Some Sample.b
  ∧ ¬ (activeInstance s' = None ∧ _activeInstanceIndex s' = -1).
Proof.
  cbn zeta. split; [vm_compute; reflexivity|].
  split; [vm_compute; reflexivity|]. split; [vm_compute; reflexivity|].
  intros [H _]. vm_compute in H. discriminate.
Qed.

(** ** Removal from the live list *)

Lemma occurrences_remove_at instance l :
  occurrences instance (remove_at (findIndex (same_object instance) l) l)
  = pred (occurrences instance l).
Proof.
  unfold occurrences.
  destruct (find_index (same_object instance) l) as [i|] eqn:Hi.
  - destruct (remove_at_found _ _ _ Hi) as [-> ->].
    apply find_index_Some in Hi as (_ & x & -> & _). done.
  - apply find_index_None in Hi.
    rewrite (remove_at_absent _ _ Hi), Hi. done.
Qed.





(** ** detachInstance *)

(** C5 (amended). detachInstance on an instance that is not under management
    (no editor input and no subscriptions under its identity, no occurrence
    in the live list) leaves the registry and the store around it as they
    are and calls nothing on any editor input, but the session-list-changed
    notification is still fired, once. *)
Theorem C5_detach_unmanaged (w : World) (instance : ITerminalInstance) :
  _editorInputs (svc w) !! path (inst_resource instance) = None →
  _instanceDisposables (svc w) !! path (inst_resource instance) = None →
  occurrences instance (instances (svc w)) = 0%nat →
  detachInstance instance w = (Returned tt, w, [Fire DidChangeInstances]).
Proof.
  intros Hin Hds Hocc. rewrite detachInstance_run. cbn zeta.
  rewrite Hin, Hds, (delete_id _ _ Hin), (delete_id _ _ Hds).
  rewrite remove_at_absent
    by (by apply length_zero_iff_nil in Hocc).
  by destruct w as [[] ? ? ? ?].
Qed.

Lemma C5_detach_unmanaged_witness :
  detachInstance Sample.b (world (Sample.one_tab initialWorld))
  = (Returned tt, world (Sample.one_tab initialWorld), [Fire DidChangeInstances]).
Proof.
  apply (C5_detach_unmanaged (world (Sample.one_tab initialWorld)) Sample.b);
    vm_compute; reflexivity.
Defined.

(** C5, as stated, fails: an unmanaged instance is detached and the
    session-list-changed notification is fired all the same. *)
Lemma C5_counterexample :
  _editorInputs (svc initialWorld) !! path (inst_resource Sample.a) = None
  ∧ _instanceDisposables (svc initialWorld) !! path (inst_resource Sample.a) = None
  ∧ occurrences Sample.a (instances (svc initialWorld)) = 0%nat
  ∧ effects (detachInstance Sample.a initialWorld) = [Fire DidChangeInstances]
  ∧ effects (detachInstance Sample.a initialWorld) ≠ [].
Proof.
  repeat (split; [vm_compute; reflexivity|]).
  intros H. vm_compute in H. discriminate.
Qed.

Lemma onWillShutdown_run w :
  onWillShutdown w
  = (Returned tt,
     mkWorld (set_isShuttingDown true (svc w))
             (next_ref w) (targets w) (listeners w) (pendingDetach w),
     []).
Proof. by destruct w. Qed.




(** ** resolveResource *)

(** C8. Resolving a resource whose identity has no stored launch
    configuration (whether or not it has a cached editor input) throws
    "could not resolve resource", and the failed call leaves the registry
    and the store around it unchanged and fires nothing. *)
Theorem C8_resolveResource_unknown
    (env : Collaborators) (w : World) (resource : URI) :
  _launchConfigs (svc w) !! path resource = None →
  resolveResource env resource w = (Thrown "could not resolve resource", w, []).
Proof.
  intros H. unfold resolveResource, bind at 1, this at 1. by rewrite H.
Qed.

Lemma C8_resolveResource_unknown_witness :
  resolveResource Sample.env Sample.term5 initialWorld
  = (Thrown "could not resolve resource", initialWorld, []).
Proof.
  apply (C8_resolveResource_unknown Sample.env initialWorld Sample.term5).
  vm_compute; reflexivity.
Defined.

(** ** setActiveInstance *)

Lemma setActiveInstance_run instance w :
  let s' := set_activeInstanceIndex
              (findIndex (same_object instance) (instances (svc w))) (svc w) in
  setActiveInstance instance w
  = (Returned tt,
     mkWorld s' (next_ref w) (targets w) (listeners w) (pendingDetach w),
     [Fire (DidChangeActiveInstance (activeInstance s'))]).
Proof.
  destruct w as [[l ix sd ei lc ids] n t ls pd]. cbn zeta.
  unfold setActiveInstance, _setActiveInstance. run. done.
Qed.

(** C9. setActiveInstance stores the index that a linear search of the live
    list finds for the given session (the first position holding that
    object); for a session that is not in the live list the index becomes -1
    and activeInstance is absent; and every call fires the active-changed
    notification once, carrying what activeInstance yields after the call. *)
Theorem C9_setActiveInstance (w : World) (instance : ITerminalInstance) :
  let r := setActiveInstance instance w in
  let s := svc w in
  let s' := svc (world r) in
  outcome r = Returned tt
  ∧ instances s' = instances s
  ∧ _activeInstanceIndex s' = findIndex (same_object instance) (instances s)
  ∧ effects r = [Fire (DidChangeActiveInstance (activeInstance s'))]
  ∧ (occurrences instance (instances s) = 0%nat →
     _activeInstanceIndex s' = -1 ∧ activeInstance s' = None)
  ∧ (∀ k, find_index (same_object instance) (instances s) = Some k →
     _activeInstanceIndex s' = Z.of_nat k
     ∧ (∀ j e, (j < k)%nat → instances s !! j = Some e →
               same_object instance e = false)
     ∧ ∃ e, instances s !! k = Some e
            ∧ same_object instance e = true
            ∧ activeInstance s' = Some e).
Proof.
  cbn zeta. rewrite setActiveInstance_run. cbn zeta.
  destruct w as [[l ix sd ei lc ids] n t ls pd]. run.
  repeat (split; [done|]). split.
  - intros Hocc. apply length_zero_iff_nil in Hocc.
    apply findIndex_absent in Hocc. rewrite Hocc. split; [done|].
    unfold activeInstance. cbn. by rewrite orb_true_r.
  - intros k Hk. unfold findIndex, activeInstance. cbn. rewrite Hk.
    split; [done|]. split; [by apply (find_index_first _ _ _ Hk)|].
    destruct (find_index_Some _ _ _ Hk) as (Hlt & e & He & Hp).
    exists e. split; [done|]. split; [done|].
    destruct (Z.eqb_spec (Z.of_nat (length l)) 0) as [?|_]; [lia|].
    destruct (Z.eqb_spec (Z.of_nat k) (-1)) as [?|_]; [lia|].
    cbn. unfold index.
    destruct (Z.ltb_spec (Z.of_nat k) 0) as [?|_]; [lia|].
    by rewrite Nat2Z.id.
Qed.

Lemma C9_setActiveInstance_witness :
  let w := world (Sample.two_tabs_first_active initialWorld) in
  let s' := svc (world (setActiveInstance Sample.b w)) in
  find_index (same_object Sample.b) (instances (svc w)) = Some 1%nat
  ∧ _activeInstanceIndex s' = 1
  ∧ activeInstance s' = Some Sample.b
  ∧ occurrences Sample.a (instances (svc initialWorld)) = 0%nat
  ∧ activeInstance (svc (world (setActiveInstance Sample.a initialWorld))) = None.
Proof.
  cbn zeta.
  assert (Hk : find_index (same_object Sample.b)
                 (instances (svc (world (Sample.two_tabs_first_active initialWorld))))
               = Some 1%nat) by (vm_compute; reflexivity).
  assert (H0 : occurrences Sample.a (instances (svc initialWorld)) = 0%nat)
    by (vm_compute; reflexivity).
  destruct (C9_setActiveInstance
              (world (Sample.two_tabs_first_active initialWorld)) Sample.b)
    as (_ & _ & _ & _ & _ & Hfound).
  destruct (Hfound 1%nat Hk) as (Hidx & _ & e & He & _ & Hact).
  destruct (C9_setActiveInstance initialWorld Sample.a)
    as (_ & _ & _ & _ & Habsent & _).
  destruct (Habsent H0) as [_ Hnone].
  split; [exact Hk|]. split; [exact Hidx|].
  split; [|split; [exact H0|exact Hnone]].
  rewrite Hact, <- He. vm_compute; reflexivity.
Defined.

(** ** The placeholder of getOrCreateResource *)

Lemma getOrCreateResource_returns env a split w :
  ∃ v, outcome (getOrCreateResource env a split w) = Returned v.
Proof.
  destruct w as [[l ix sd ei lc ids] n t ls pd].
  unfold getOrCreateResource, bind at 1, this at 1. cbn [svc _editorInputs fst snd].
  destruct (ei !! _) as [cachedEditor|]; [by eexists|].
  destruct a as [i|d|u]; run.
  - by eexists.
  - destruct (createInstance env _ _ _ n). by eexists.
  - destruct (tid_instanceId _) as [id|]; [destruct (negb _)|]; run; by eexists.
Qed.

(** C6. A getOrCreateResource call that passes the cache lookup with an
    input that has neither a [pid] nor an [instanceId] (a URI) produces no
    session: it returns the placeholder URI built by
    getTerminalUri('dfsldjfkdslfsjdflksdjf', 2, 'fake') instead of throwing,
    and writes nothing into the registry; at most a detach request is sent
    to the backend.  No call of getOrCreateResource throws. *)
Theorem C6_getOrCreateResource_placeholder
    (env : Collaborators) (w : World) (u : URI) (split : bool) :
  _editorInputs (svc w) !! path u = None →
  let r := getOrCreateResource env (AUri u) split w in
  let terminalIdentifier := parseTerminalUri env u in
  outcome r = Returned (IsUri (getTerminalUri env "dfsldjfkdslfsjdflksdjf" 2 (Some "fake")))
  ∧ svc (world r) = svc w
  ∧ listeners (world r) = listeners w
  ∧ effects r
    = match tid_instanceId terminalIdentifier with
      | Some id => if truthy (Some id)
                   then [RequestDetachInstance (workspaceId terminalIdentifier) id]
                   else []
      | None => []
      end
  ∧ (∀ a w0, ∃ v, outcome (getOrCreateResource env a split w0) = Returned v).
Proof.
  intros H. cbn zeta.
  split; [|split; [|split; [|split; [|intros; apply getOrCreateResource_returns]]]];
    destruct w as [[l ix sd ei lc ids] n t ls pd]; cbn [svc _editorInputs] in H;
    unfold getOrCreateResource, bind at 1, this at 1;
    cbn [svc _editorInputs fst snd resourceOf]; rewrite H; run;
    (destruct (tid_instanceId _) as [id|]; [destruct (negb _)|]; run; done).
Qed.

Lemma C6_getOrCreateResource_placeholder_witness :
  let r := getOrCreateResource Sample.env (AUri Sample.term5) false initialWorld in
  outcome r
  = Returned (IsUri (mkURI "vscode-terminal" "" "/dfsldjfkdslfsjdflksdjf/2" "" "fake"))
  ∧ svc (world r) = svc initialWorld
  ∧ effects r = [RequestDetachInstance "window1" 5].
Proof.
  cbn zeta.
  destruct (C6_getOrCreateResource_placeholder Sample.env initialWorld
              Sample.term5 false)
    as (Hout & Hsvc & _ & Heff & _); [vm_compute; reflexivity|].
  split; [|split; [exact Hsvc|]].
  - rewrite Hout. vm_compute; reflexivity.
  - rewrite Heff. vm_compute; reflexivity.
Defined.

(** ** Adoption of a terminal editor the registry has not seen *)




(** ** One live-list entry per identity *)

Section OneEntryPerIdentity.

Variable env : Collaborators.

Lemma sessions_of_insert key input instance m :
  m !! key = None →
  terminalInstance input = Some instance →
  sessions_of (<[key := input]> m) ≡ₚ instance :: sessions_of m.
Proof.
  intros Hfree Hshown. unfold sessions_of.
  rewrite (map_to_list_insert m key input Hfree). cbn. by rewrite Hshown.
Qed.

Lemma length_sessions_of m : (length (sessions_of m) ≤ size m)%nat.
Proof.
  unfold sessions_of. rewrite <- length_map_to_list.
  induction (map_to_list m) as [|entry l IH]; cbn; [done|].
  destruct (terminalInstance entry.2); cbn; lia.
Qed.

(** [getOrCreateResource] appends a session exactly when it gives a new
    identity its editor input. *)
Lemma getOrCreateResource_one_entry a split w :
  one_entry_per_identity (svc w) →
  one_entry_per_identity (svc (world (getOrCreateResource env a split w))).
Proof.
  unfold one_entry_per_identity. intros Hinv.
  destruct (_editorInputs (svc w) !! path (resourceOf a)) as [cachedEditor|]
    eqn:Hcache.
  { by rewrite (getOrCreateResource_hit env a split w cachedEditor Hcache). }
  destruct (getOrCreateResource env a split w) as [[o w1] e1] eqn:Hrun.
  change (instances (svc w1) ≡ₚ sessions_of (_editorInputs (svc w1))).
  destruct w as [[l ix sd ei lc ids] n t ls pd].
  cbn [svc instances _editorInputs] in Hinv, Hcache.
  unfold getOrCreateResource, bind at 1, this at 1 in Hrun.
  cbn [svc _editorInputs fst snd] in Hrun. rewrite Hcache in Hrun.
  destruct a as [i|d|u]; revert Hrun; run.
  - intros [= _ <- _]. cbn [svc instances _editorInputs].
    rewrite sessions_of_insert by (exact Hcache || reflexivity).
    rewrite <- Hinv. symmetry. apply Permutation_cons_append.
  - destruct (createInstance env _ _ _ n) as [id res].
    intros [= _ <- _]. cbn [svc instances _editorInputs].
    rewrite sessions_of_insert by (exact Hcache || reflexivity).
    rewrite <- Hinv. symmetry. apply Permutation_cons_append.
  - destruct (tid_instanceId _) as [id|]; [destruct (negb _)|]; run;
      intros [= _ <- _]; done.
Qed.

Lemma getOrCreateResource_seq_one_entry args w :
  one_entry_per_identity (svc w) →
  one_entry_per_identity (svc (world (getOrCreateResource_seq env args w))).
Proof.
  revert w. induction args as [|a args IH]; intros w Hinv; [done|].
  cbn [getOrCreateResource_seq]. unfold bind at 1.
  pose proof (getOrCreateResource_one_entry a false w Hinv) as H1.
  destruct (getOrCreateResource env a false w) as [[[v|msg] w1] e1]; [|done].
  unfold bind at 1. specialize (IH w1 H1).
  destruct (getOrCreateResource_seq env args w1) as [[[vs|msg] w2] e2]; done.
Qed.

(** [resolveResource] does not look at the editor-input map: with a stored
    launch configuration it appends a new session and overwrites whatever
    the two maps held under the identity. *)
Lemma resolveResource_run resource launchConfig w :
  _launchConfigs (svc w) !! path resource = Some launchConfig →
  let n := next_ref w in
  let p := createInstance env (LaunchOptions launchConfig) (target launchConfig)
             (Some resource) n in
  let instance := mkInstance n p.1 p.2 in
  let input := mkInput (S n) resource (Some instance) in
  let d1 := mkDisposable (S (S n)) OnDidFocus n in
  let d2 := mkDisposable (S (S (S n))) OnDisposed n in
  resolveResource env resource w
  = (Returned input,
     mkWorld
       (mkService
          (instances (svc w) ++ [instance])
          (_activeInstanceIndex (svc w))
          (_isShuttingDown (svc w))
          (<[path resource := input]> (_editorInputs (svc w)))
          (_launchConfigs (svc w))
          (<[path resource := [d1; d2]]> (_instanceDisposables (svc w))))
       (S (S (S (S n)))) (targets w)
       ((listeners w ++ [d1]) ++ [d2])
       (pendingDetach w),
     [Fire DidChangeInstances]).
Proof.
  destruct w as [[l ix sd ei lc ids] n t ls pd]. cbn [svc _launchConfigs next_ref].
  intros H. cbn zeta. unfold resolveResource, bind at 1, this at 1.
  cbn [svc _launchConfigs fst snd]. rewrite H. run.
  by destruct (createInstance env _ _ _ n) as [id res].
Qed.

(** Given an instance or a URI, [getOrCreateResource] stores an editor
    input under the resource path of the session it shows. *)
Lemma getOrCreateResource_keyed a split w :
  hasPid a = false →
  keyed_by_resource_path (svc w) →
  keyed_by_resource_path (svc (world (getOrCreateResource env a split w))).
Proof.
  intros Hshape Hkeyed.
  destruct (_editorInputs (svc w) !! path (resourceOf a)) as [cachedEditor|]
    eqn:Hcache.
  { by rewrite (getOrCreateResource_hit env a split w cachedEditor Hcache). }
  destruct (getOrCreateResource env a split w) as [[o w1] e1] eqn:Hrun.
  change (keyed_by_resource_path (svc w1)).
  destruct w as [[l ix sd ei lc ids] n t ls pd].
  cbn [svc _editorInputs] in Hkeyed, Hcache.
  unfold getOrCreateResource, bind at 1, this at 1 in Hrun.
  cbn [svc _editorInputs fst snd] in Hrun. rewrite Hcache in Hrun.
  destruct a as [i|d|u]; [|done|]; revert Hrun; run.
  - intros [= _ <- _]. intros key input. cbn [svc _editorInputs].
    destruct (decide (path (inst_resource i) = key)) as [<-|Hne].
    + rewrite lookup_insert_eq. intros [= <-]. by exists i.
    + rewrite lookup_insert_ne by done. apply Hkeyed.
  - destruct (tid_instanceId _) as [id|]; [destruct (negb _)|]; run;
      intros [= _ <- _]; done.
Qed.

Lemma getOrCreateResource_seq_keyed args w :
  forallb (λ a, negb (hasPid a)) args = true →
  keyed_by_resource_path (svc w) →
  keyed_by_resource_path (svc (world (getOrCreateResource_seq env args w))).
Proof.
  revert w. induction args as [|a args IH]; intros w; [done|].
  cbn [forallb]. intros [Ha Hargs]%andb_true_iff Hkeyed.
  apply negb_true_iff in Ha.
  cbn [getOrCreateResource_seq]. unfold bind at 1.
  pose proof (getOrCreateResource_keyed a false w Ha Hkeyed) as H1.
  destruct (getOrCreateResource env a false w) as [[[v|msg] w1] e1]; [|done].
  unfold bind at 1. specialize (IH w1 Hargs H1).
  destruct (getOrCreateResource_seq env args w1) as [[[vs|msg] w2] e2]; done.
Qed.

(** When every editor input is stored under the resource path of its
    session, the sessions of the map have the keys of the map as their
    resource paths. *)
Lemma paths_of_sessions (entries : list (string * TerminalEditorInput)) :
  (∀ key input, (key, input) ∈ entries →
     ∃ i, terminalInstance input = Some i ∧ path (inst_resource i) = key) →
  (λ i, path (inst_resource i)) <$> omap (λ entry, terminalInstance entry.2) entries
  = entries.*1.
Proof.
  induction entries as [|[key input] entries IH]; intros Hkeyed; [done|].
  destruct (Hkeyed key input) as (i & Hi & Hpath); [by left|].
  cbn. rewrite Hi. cbn. rewrite Hpath. f_equal.
  apply IH. intros key' input' Hmem. apply Hkeyed. by right.
Qed.

(** Then a live list that holds the sessions of the map has no two entries
    with the same resource path. *)
Lemma one_entry_identities_NoDup s :
  one_entry_per_identity s →
  keyed_by_resource_path s →
  NoDup (identities s).
Proof.
  unfold one_entry_per_identity, keyed_by_resource_path, identities, sessions_of.
  intros Hperm Hkeyed. rewrite Hperm, paths_of_sessions.
  - apply NoDup_fst_map_to_list.
  - intros key input Hmem. apply Hkeyed. by apply elem_of_map_to_list.
Qed.

End OneEntryPerIdentity.

(** C4 (amended). Every identity has at most one editor input, the map
    being keyed by identity.  Along getOrCreateResource, starting from the
    empty registry or from any registry where that holds, the live list is
    a rearrangement of the sessions that the entries of the editor-input map
    show, one for each key, so it never outgrows the map.  When, in
    addition, every editor input is stored under the resource path of the
    session it shows (as in the empty registry) and the calls are given
    instances and URIs only, that stays so and no two entries of the live
    list have the same resource path.  A deserialized input is left out of
    this second part: its editor input is stored under the path of the
    input, not of the session created for it. *)
Theorem C4_one_entry_per_identity
    (env : Collaborators) (args : list InstanceOrUri) (w : World) :
  one_entry_per_identity (svc w) →
  let s' := svc (world (getOrCreateResource_seq env args w)) in
  one_entry_per_identity initialService
  ∧ keyed_by_resource_path initialService
  ∧ one_entry_per_identity s'
  ∧ (length (instances s') ≤ size (_editorInputs s'))%nat
  ∧ (∀ key input1 input2,
       _editorInputs s' !! key = Some input1 →
       _editorInputs s' !! key = Some input2 →
       input1 = input2)
  ∧ (keyed_by_resource_path (svc w) →
     forallb (λ a, negb (hasPid a)) args = true →
     keyed_by_resource_path s' ∧ NoDup (identities s')).
Proof.
  intros Hinv. cbn zeta.
  pose proof (getOrCreateResource_seq_one_entry env args w Hinv) as Hinv'.
  split; [|split; [|split; [exact Hinv'|split; [|split]]]].
  - unfold one_entry_per_identity, sessions_of. cbn.
    by rewrite map_to_list_empty.
  - intros key input. cbn. by rewrite lookup_empty.
  - rewrite Hinv'. apply length_sessions_of.
  - congruence.
  - intros Hkeyed Hargs.
    pose proof (getOrCreateResource_seq_keyed env args w Hargs Hkeyed) as Hkeyed'.
    split; [done|]. by apply one_entry_identities_NoDup.
Qed.

Lemma C4_one_entry_per_identity_witness :
  let s' := svc (world (getOrCreateResource_seq Sample.env
                          [AnInstance Sample.a; AUri Sample.term5;
                           AnInstance Sample.b; AnInstance Sample.a]
                          initialWorld)) in
  one_entry_per_identity (svc initialWorld)
  ∧ one_entry_per_identity s'
  ∧ (length (instances s') ≤ size (_editorInputs s'))%nat
  ∧ NoDup (identities s').
Proof.
  cbn zeta.
  assert (H0 : one_entry_per_identity (svc initialWorld)).
  { unfold one_entry_per_identity. vm_compute. reflexivity. }
  destruct (C4_one_entry_per_identity Sample.env
              [AnInstance Sample.a; AUri Sample.term5;
               AnInstance Sample.b; AnInstance Sample.a]
              initialWorld H0)
    as (_ & Hkeyed & Hinv & Hle & _ & Hdistinct).
  split; [exact H0|]. split; [exact Hinv|]. split; [exact Hle|].
  exact (proj2 (Hdistinct Hkeyed eq_refl)).
Defined.

(** A deserialized input is registered under its own path, so the session
    created for it can be registered once more, under the path of the
    session: the live list is still a rearrangement of the sessions of the
    map entries, and holds the same session twice. *)
Example deserialized_then_its_session :
  let s := svc (world (Sample.restored_opened_twice initialWorld)) in
  instances s = [Sample.restored; Sample.restored]
  ∧ identities s = ["/w/1000"; "/w/1000"]
  ∧ dom (_editorInputs s) = {["/window1/6"; "/w/1000"]}
  ∧ one_entry_per_identity s
  ∧ ¬ NoDup (identities s).
Proof.
  cbn zeta.
  assert (Hl : instances (svc (world (Sample.restored_opened_twice initialWorld)))
               = [Sample.restored; Sample.restored]) by (vm_compute; reflexivity).
  assert (Hids : identities (svc (world (Sample.restored_opened_twice initialWorld)))
                 = ["/w/1000"; "/w/1000"]) by (vm_compute; reflexivity).
  split; [exact Hl|]. split; [exact Hids|].
  split; [vm_compute; reflexivity|]. split.
  - pose proof (C := getOrCreateResource_seq_one_entry Sample.env
                  [ADeserialized Sample.deserialized6; AnInstance Sample.restored]
                  initialWorld).
    assert (Hsame : svc (world (getOrCreateResource_seq Sample.env
                                  [ADeserialized Sample.deserialized6;
                                   AnInstance Sample.restored] initialWorld))
                    = svc (world (Sample.restored_opened_twice initialWorld)))
      by (vm_compute; reflexivity).
    rewrite <- Hsame. apply C.
    unfold one_entry_per_identity. vm_compute. reflexivity.
  - rewrite Hids. intros Hnd. apply NoDup_cons in Hnd as [Hnot _].
    apply Hnot. by left.
Qed.

(** C4, as stated, fails along resolveResource: with a launch configuration
    stored for /window1/5, resolving that resource twice leaves two sessions
    of that identity in the live list against one key in the editor-input
    map. *)
Lemma C4_counterexample :
  let r := Sample.resolved_twice initialWorld in
  let s := svc (world r) in
  outcome r = Returned tt
  ∧ path <$> (inst_resource <$> instances s) = ["/window1/5"; "/window1/5"]
  ∧ inst_ref <$> instances s = [0; 4]%nat
  ∧ size (_editorInputs s) = 1%nat
  ∧ ¬ one_entry_per_identity s.
Proof.
  cbn zeta. repeat (split; [vm_compute; reflexivity|]).
  unfold one_entry_per_identity. intros Hperm.
  apply Permutation_length in Hperm. vm_compute in Hperm. discriminate.
Qed.

(** ** The service on the sample terminals *)

Example parseTerminalUri_term5 :
  Sample.parseTerminalUri Sample.term5 = mkIdentifier "window1" (Some 5).
Proof. vm_compute. reflexivity. Qed.

(** A session is opened as an editor: one live session, none active; making
    it active fires one active-changed notification that carries it. *)
Example open_then_activate :
  let w := world (Sample.one_tab initialWorld) in
  let r := setActiveInstance Sample.a w in
  length (instances (svc w)) = 1%nat
  ∧ _activeInstanceIndex (svc w) = -1
  ∧ activeInstance (svc (world r)) = Some Sample.a
  ∧ effects r = [Fire (DidChangeActiveInstance (Some Sample.a))].
Proof. cbn zeta. repeat split; vm_compute; reflexivity. Qed.

(** After a detach the identity is free again: the next call creates a new
    editor input. *)
Example detach_then_open_again :
  let w := world (detachInstance Sample.a (world (Sample.one_tab initialWorld))) in
  outcome (Sample.one_tab initialWorld) = Returned (IsInput Sample.input_a)
  ∧ outcome (Sample.one_tab w)
    = Returned (IsInput (mkInput 3 Sample.term5 (Some Sample.a))).
Proof. cbn zeta. split; vm_compute; reflexivity. Qed.

(** * More of the service *)

(** Also unfolds the primitives of the rest of the class. *)
Ltac run_more :=
  cbv [get_target constructor_toDisposable openEditor asInstanceOrUri
       fire_onDidDisposeInstance forward];
  run.

(** ** Helpers on lists of listeners and on the live list *)

Lemma filter_keeps_all {A} (P : A → Prop) `{!∀ x, Decision (P x)} (l : list A) :
  (∀ x, x ∈ l → P x) → filter P l = l.
Proof.
  induction l as [|x l IH]; intros Hall; [done|].
  rewrite filter_cons_True by (apply Hall; left).
  f_equal. apply IH. intros y Hy. apply Hall. by right.
Qed.

Lemma filter_drops_all {A} (P : A → Prop) `{!∀ x, Decision (P x)} (l : list A) :
  (∀ x, x ∈ l → ¬ P x) → filter P l = [].
Proof.
  induction l as [|x l IH]; intros Hall; [done|].
  rewrite filter_cons_False by (apply Hall; left).
  apply IH. intros y Hy. apply Hall. by right.
Qed.

(** Taking off the subscriptions that were attached last gives back the
    listeners there were before, addresses being fresh. *)
Lemma dispose_fresh (ls ds : list IDisposable) :
  (∀ l, l ∈ ls → sub_ref l ∉ sub_ref <$> ds) →
  filter (λ l, sub_ref l ∉ sub_ref <$> ds) (ls ++ ds) = ls.
Proof.
  intros Hfresh. rewrite filter_app.
  rewrite (filter_keeps_all _ ls Hfresh).
  rewrite (filter_drops_all _ ds); [apply app_nil_r|].
  intros d Hd Hnot. apply Hnot. by apply list_elem_of_fmap_2.
Qed.

Lemma find_index_app_last {A} (p : A → bool) (l : list A) (x : A) :
  List.filter p l = [] → p x = true →
  find_index p (l ++ [x]) = Some (length l).
Proof.
  intros Hl Hx. induction l as [|y l IH]; cbn in *; [by rewrite Hx|].
  destruct (p y); [done|]. by rewrite (IH Hl).
Qed.

Lemma remove_at_last (instance : ITerminalInstance) (l : list ITerminalInstance) :
  occurrences instance l = 0%nat →
  remove_at (findIndex (same_object instance) (l ++ [instance])) (l ++ [instance]) = l.
Proof.
  intros Hocc. apply length_zero_iff_nil in Hocc.
  unfold remove_at, findIndex, splice1.
  rewrite (find_index_app_last _ l instance Hocc)
    by (unfold same_object; apply Nat.eqb_refl).
  destruct (Z.eqb_spec (Z.of_nat (length l)) (-1)) as [?|_]; [lia|].
  rewrite Nat2Z.id, delete_middle. apply app_nil_r.
Qed.

Lemma same_object_refl instance : same_object instance instance = true.
Proof. unfold same_object. apply Nat.eqb_refl. Qed.

(** ** Registration written out *)

(** What [getOrCreateResource] does for an instance whose identity has no
    editor input yet. *)
Lemma getOrCreateResource_instance_run env instance split w :
  _editorInputs (svc w) !! path (inst_resource instance) = None →
  let n := next_ref w in
  let inputKey := path (inst_resource instance) in
  let input := mkInput n (inst_resource instance) (Some instance) in
  let d1 := mkDisposable (S n) OnDidFocus (inst_ref instance) in
  let d2 := mkDisposable (S (S n)) OnDisposed (inst_ref instance) in
  getOrCreateResource env (AnInstance instance) split w
  = (Returned (IsInput input),
     mkWorld
       (mkService
          (instances (svc w) ++ [instance])
          (_activeInstanceIndex (svc w))
          (_isShuttingDown (svc w))
          (<[inputKey := input]> (_editorInputs (svc w)))
          (_launchConfigs (svc w))
          (<[inputKey := [d1; d2]]> (_instanceDisposables (svc w))))
       (S (S (S n)))
       (<[inst_ref instance := Editor]> (targets w))
       (listeners w ++ [d1; d2])
       (pendingDetach w),
     [Fire DidChangeInstances]).
Proof.
  destruct w as [[l ix sd ei lc ids] n t ls pd]. cbn [svc _editorInputs next_ref].
  intros H. cbn zeta. unfold getOrCreateResource, bind at 1, this at 1.
  cbn [svc _editorInputs fst snd resourceOf]. rewrite H. run.
  by rewrite <- app_assoc.
Qed.

(** What [getOrCreateResource] does for a deserialized input whose identity
    has no editor input yet. *)
Lemma getOrCreateResource_deserialized_run env d split w :
  _editorInputs (svc w) !! path (des_resource d) = None →
  let n := next_ref w in
  let inputKey := path (des_resource d) in
  let p := createInstance env
             (LaunchShell (mkShellLaunchConfig (Some (FromDeserialized d))))
             (Some Editor) None n in
  let instance := mkInstance n p.1 p.2 in
  let input := mkInput (S n) (des_resource d) (Some instance) in
  let d1 := mkDisposable (S (S n)) OnDidFocus n in
  let d2 := mkDisposable (S (S (S n))) OnDisposed n in
  getOrCreateResource env (ADeserialized d) split w
  = (Returned (IsInput input),
     mkWorld
       (mkService
          (instances (svc w) ++ [instance])
          (_activeInstanceIndex (svc w))
          (_isShuttingDown (svc w))
          (<[inputKey := input]> (_editorInputs (svc w)))
          (_launchConfigs (svc w))
          (<[inputKey := [d1; d2]]> (_instanceDisposables (svc w))))
       (S (S (S (S n))))
       (<[n := Editor]> (targets w))
       (listeners w ++ [d1; d2])
       (pendingDetach w),
     [Fire DidChangeInstances]).
Proof.
  destruct w as [[l ix sd ei lc ids] n t ls pd]. cbn [svc _editorInputs next_ref].
  intros H. cbn zeta. unfold getOrCreateResource, bind at 1, this at 1.
  cbn [svc _editorInputs fst snd resourceOf]. rewrite H. run.
  destruct (createInstance env _ _ _ n) as [id res]. cbn.
  by rewrite <- app_assoc.
Qed.

(** X1. Opening a session and detaching it again is a round trip: when the
    identity of the session had no entry and the session was not in the live
    list, the registry is back in the state it had, the two subscriptions of
    the entry are taken off again, and the editor input created by the first
    call is detached and then disposed (not disposed while shutting down)
    before the session-list-changed notification. *)
Theorem register_then_detach_round_trip
    (env : Collaborators) (w : World) (instance : ITerminalInstance) (split : bool) :
  _editorInputs (svc w) !! path (inst_resource instance) = None →
  _instanceDisposables (svc w) !! path (inst_resource instance) = None →
  occurrences instance (instances (svc w)) = 0%nat →
  Forall (λ d, (sub_ref d < next_ref w)%nat) (listeners w) →
  let r1 := getOrCreateResource env (AnInstance instance) split w in
  let r2 := detachInstance instance (world r1) in
  let input := mkInput (next_ref w) (inst_resource instance) (Some instance) in
  outcome r1 = Returned (IsInput input)
  ∧ svc (world r2) = svc w
  ∧ listeners (world r2) = listeners w
  ∧ pendingDetach (world r2) = pendingDetach w
  ∧ effects r2
    = InputDetachInstance input
        :: (if _isShuttingDown (svc w) then [] else [InputDispose input])
        ++ [Fire DidChangeInstances].
Proof.
  intros Hin Hds Hocc Hfresh. cbn zeta.
  rewrite (getOrCreateResource_instance_run env instance split w Hin). cbn zeta.
  rewrite detachInstance_run. cbn zeta.
  destruct w as [[l ix sd ei lc ids] n t ls pd].
  cbn [svc _editorInputs _instanceDisposables instances next_ref listeners] in *.
  run. rewrite !lookup_insert_eq.
  rewrite (remove_at_last instance l Hocc).
  rewrite !delete_insert_eq, (delete_id _ _ Hin), (delete_id _ _ Hds).
  repeat split.
  apply dispose_fresh. intros d Hd.
  rewrite Forall_forall in Hfresh. specialize (Hfresh d Hd). cbn.
  intros Hmem. repeat (apply elem_of_cons in Hmem as [Hmem|Hmem]; [lia|]).
  by apply elem_of_nil in Hmem.
Qed.

Lemma register_then_detach_round_trip_witness :
  let w := world (Sample.one_tab initialWorld) in
  let r1 := getOrCreateResource Sample.env (AnInstance Sample.b) false w in
  let r2 := detachInstance Sample.b (world r1) in
  svc (world r2) = svc w ∧ listeners (world r2) = listeners w.
Proof.
  cbn zeta.
  destruct (register_then_detach_round_trip Sample.env
              (world (Sample.one_tab initialWorld)) Sample.b false)
    as (_ & Hsvc & Hls & _);
    [vm_compute; reflexivity | vm_compute; reflexivity | vm_compute; reflexivity
    | vm_compute; repeat constructor |].
  split; [exact Hsvc|exact Hls].
Defined.

Lemma world_detachInstance instance w :
  world (detachInstance instance w)
  = mkWorld
      (mkService
         (remove_at (findIndex (same_object instance) (instances (svc w)))
                    (instances (svc w)))
         (_activeInstanceIndex (svc w))
         (_isShuttingDown (svc w))
         (delete (path (inst_resource instance)) (_editorInputs (svc w)))
         (_launchConfigs (svc w))
         (delete (path (inst_resource instance)) (_instanceDisposables (svc w))))
      (next_ref w) (targets w)
      (match _instanceDisposables (svc w) !! path (inst_resource instance) with
       | Some ds => filter (λ l, sub_ref l ∉ sub_ref <$> ds) (listeners w)
       | None => listeners w
       end)
      (pendingDetach w).
Proof. by rewrite detachInstance_run. Qed.

(** X2. After detachInstance the identity of the detached session is free
    again: the next getOrCreateResource call for that identity, given an
    instance or a deserialized input, creates a new editor input at a new
    address and registers it, so it never hands out the editor input that
    was stored before the detach. *)
Theorem detach_then_open_creates_new_input
    (env : Collaborators) (w : World) (instance : ITerminalInstance)
    (a : InstanceOrUri) (split : bool) :
  isUri a = false →
  path (resourceOf a) = path (inst_resource instance) →
  let w1 := world (detachInstance instance w) in
  let r := getOrCreateResource env a split w1 in
  ∃ input,
    outcome r = Returned (IsInput input)
    ∧ (next_ref w ≤ input_ref input)%nat
    ∧ effects r = [Fire DidChangeInstances]
    ∧ _editorInputs (svc (world r)) !! path (resourceOf a) = Some input
    ∧ (∀ old, _editorInputs (svc w) !! path (resourceOf a) = Some old →
              (input_ref old < next_ref w)%nat → input ≠ old).
Proof.
  intros Hshape Hkey. cbn zeta.
  assert (Hfree : _editorInputs (svc (world (detachInstance instance w)))
                    !! path (resourceOf a) = None).
  { rewrite detachInstance_service, Hkey. apply lookup_delete_eq. }
  assert (Hn : next_ref (world (detachInstance instance w)) = next_ref w)
    by (by rewrite world_detachInstance).
  revert Hfree Hn. generalize (world (detachInstance instance w)). intros w1 Hfree Hn.
  destruct a as [i|d|u]; [| |done].
  - rewrite (getOrCreateResource_instance_run env i split w1 Hfree). cbn zeta.
    eexists. split; [reflexivity|]. split; [cbn; lia|]. split; [done|].
    split; [apply lookup_insert_eq|].
    intros old _ Hold Heq. subst old. cbn in Hold. lia.
  - rewrite (getOrCreateResource_deserialized_run env d split w1 Hfree). cbn zeta.
    eexists. split; [reflexivity|]. split; [cbn; lia|]. split; [done|].
    split; [apply lookup_insert_eq|].
    intros old _ Hold Heq. subst old. cbn in Hold. lia.
Qed.

Lemma detach_then_open_creates_new_input_witness :
  let w := world (Sample.one_tab initialWorld) in
  let r := getOrCreateResource Sample.env (AnInstance Sample.a) false
             (world (detachInstance Sample.a w)) in
  _editorInputs (svc w) !! path Sample.term5 = Some Sample.input_a
  ∧ ∃ input, outcome r = Returned (IsInput input) ∧ input ≠ Sample.input_a.
Proof.
  cbn zeta.
  assert (Hold : _editorInputs (svc (world (Sample.one_tab initialWorld)))
                   !! path Sample.term5 = Some Sample.input_a)
    by (vm_compute; reflexivity).
  split; [exact Hold|].
  destruct (detach_then_open_creates_new_input Sample.env
              (world (Sample.one_tab initialWorld)) Sample.a
              (AnInstance Sample.a) false eq_refl eq_refl)
    as (input & Hout & _ & _ & _ & Hnew).
  exists input. split; [exact Hout|].
  apply Hnew; [exact Hold|]. vm_compute. lia.
Defined.

(** Nothing to remove: no entry under the identity, no occurrence in the
    live list. *)
Lemma detachInstance_nothing_to_remove instance w :
  _editorInputs (svc w) !! path (inst_resource instance) = None →
  _instanceDisposables (svc w) !! path (inst_resource instance) = None →
  occurrences instance (instances (svc w)) = 0%nat →
  detachInstance instance w = (Returned tt, w, [Fire DidChangeInstances]).
Proof.
  intros Hin Hds Hocc. rewrite detachInstance_run. cbn zeta.
  rewrite Hin, Hds, (delete_id _ _ Hin), (delete_id _ _ Hds).
  rewrite remove_at_absent by (by apply length_zero_iff_nil in Hocc).
  by destruct w as [[] ? ? ? ?].
Qed.

(** X3. detachInstance is idempotent on the registry: when the session
    occurs at most once in the live list, a second detachInstance for it
    changes nothing, calls nothing on any editor input and only fires the
    session-list-changed notification again. *)
Theorem detachInstance_twice (w : World) (instance : ITerminalInstance) :
  (occurrences instance (instances (svc w)) ≤ 1)%nat →
  let w1 := world (detachInstance instance w) in
  detachInstance instance w1 = (Returned tt, w1, [Fire DidChangeInstances]).
Proof.
  intros Hocc. cbn zeta. apply detachInstance_nothing_to_remove.
  - rewrite detachInstance_service. apply lookup_delete_eq.
  - rewrite detachInstance_service. apply lookup_delete_eq.
  - rewrite detachInstance_service. cbn [instances].
    rewrite occurrences_remove_at. lia.
Qed.

Lemma detachInstance_twice_witness :
  let w1 := world (detachInstance Sample.a
                     (world (Sample.two_tabs_first_active initialWorld))) in
  detachInstance Sample.a w1 = (Returned tt, w1, [Fire DidChangeInstances]).
Proof.
  apply (detachInstance_twice
           (world (Sample.two_tabs_first_active initialWorld)) Sample.a).
  vm_compute. lia.
Defined.

Lemma filter_delete_other {A} (q : A → bool) (l : list A) (i : nat) (x : A) :
  l !! i = Some x → q x = false →
  List.filter q (delete i l) = List.filter q l.
Proof.
  revert i. induction l as [|y l IH]; intros [|i]; try done.
  - intros [= ->] Hq. cbn. by rewrite Hq.
  - intros Hx Hq. change (delete (S i) (y :: l)) with (y :: delete i l).
    cbn [List.filter]. by rewrite (IH i Hx Hq).
Qed.

Lemma occurrences_remove_at_other instance other l :
  same_object instance other = false →
  occurrences other (remove_at (findIndex (same_object instance) l) l)
  = occurrences other l.
Proof.
  intros Hother. unfold occurrences.
  destruct (find_index (same_object instance) l) as [i|] eqn:Hi.
  - destruct (remove_at_found _ _ _ Hi) as [-> _].
    destruct (find_index_Some _ _ _ Hi) as (_ & x & Hx & Hp).
    rewrite (filter_delete_other _ l i x Hx); [done|].
    unfold same_object in *. apply Nat.eqb_eq in Hp.
    apply Nat.eqb_neq in Hother. apply Nat.eqb_neq. lia.
  - apply find_index_None in Hi. by rewrite (remove_at_absent _ _ Hi).
Qed.

(** X4. detachInstance only touches the identity and the session it is
    given: the entries of both maps under every other identity, the launch
    configurations, the shutdown flag, the number of occurrences of every
    other object in the live list and every listener that is not one of the
    subscriptions of the removed entry are as before. *)
Theorem detachInstance_frame (w : World) (instance : ITerminalInstance) :
  let inputKey := path (inst_resource instance) in
  let r := detachInstance instance w in
  let s := svc w in
  let s' := svc (world r) in
  (∀ key, key ≠ inputKey →
     _editorInputs s' !! key = _editorInputs s !! key
     ∧ _instanceDisposables s' !! key = _instanceDisposables s !! key)
  ∧ _launchConfigs s' = _launchConfigs s
  ∧ _isShuttingDown s' = _isShuttingDown s
  ∧ (∀ other, same_object instance other = false →
       occurrences other (instances s') = occurrences other (instances s))
  ∧ next_ref (world r) = next_ref w
  ∧ targets (world r) = targets w
  ∧ pendingDetach (world r) = pendingDetach w
  ∧ (∀ d, d ∈ listeners w →
       (∀ ds, _instanceDisposables s !! inputKey = Some ds →
              sub_ref d ∉ sub_ref <$> ds) →
       d ∈ listeners (world r)).
Proof.
  cbn zeta. rewrite world_detachInstance.
  cbn [svc _editorInputs _instanceDisposables instances next_ref listeners
       _launchConfigs _activeInstanceIndex _isShuttingDown targets pendingDetach].
  split; [intros key Hkey; split; by apply lookup_delete_ne|].
  split; [done|]. split; [done|].
  split; [intros other Hother; by apply occurrences_remove_at_other|].
  split; [done|]. split; [done|]. split; [done|].
  intros d Hd Hkeep.
  destruct (_instanceDisposables (svc w) !! _) as [ds|]; [|done].
  apply list_elem_of_filter. split; [by apply Hkeep|done].
Qed.

Lemma detachInstance_frame_witness :
  let w := world (Sample.two_tabs_first_active initialWorld) in
  let s' := svc (world (detachInstance Sample.a w)) in
  _editorInputs s' !! path Sample.term6 = _editorInputs (svc w) !! path Sample.term6
  ∧ occurrences Sample.b (instances s') = occurrences Sample.b (instances (svc w)).
Proof.
  cbn zeta.
  destruct (detachInstance_frame
              (world (Sample.two_tabs_first_active initialWorld)) Sample.a)
    as (Hmaps & _ & _ & Hocc & _).
  split.
  - apply Hmaps. vm_compute. discriminate.
  - apply Hocc. vm_compute. reflexivity.
Defined.

(** ** The active editor *)

Lemma activeInstance_after_set instance s :
  (0 < occurrences instance (instances s))%nat →
  ∃ e, e ∈ instances s
       ∧ same_object instance e = true
       ∧ activeInstance
           (set_activeInstanceIndex
              (findIndex (same_object instance) (instances s)) s) = Some e.
Proof.
  intros Hocc. destruct s as [l ix sd ei lc ids]. cbn [instances] in *.
  destruct (find_index (same_object instance) l) as [k|] eqn:Hk.
  - destruct (find_index_Some _ _ _ Hk) as (Hlt & e & He & Hp).
    exists e. split; [by apply list_elem_of_lookup_2 in He|]. split; [done|].
    unfold activeInstance, findIndex, index. cbn. rewrite Hk.
    destruct (Z.eqb_spec (Z.of_nat (length l)) 0) as [?|_]; [lia|].
    destruct (Z.eqb_spec (Z.of_nat k) (-1)) as [?|_]; [lia|].
    destruct (Z.ltb_spec (Z.of_nat k) 0) as [?|_]; [lia|].
    cbn. by rewrite Nat2Z.id.
  - apply find_index_None in Hk. unfold occurrences in Hocc.
    rewrite Hk in Hocc. cbn in Hocc. lia.
Qed.

Lemma onDidActiveEditorChange_terminal inp instance w :
  terminalInstance inp = Some instance →
  let s' := set_activeInstanceIndex
              (findIndex (same_object instance) (instances (svc w))) (svc w) in
  onDidActiveEditorChange (Some (TerminalInput inp)) w
  = (Returned tt,
     mkWorld s' (next_ref w) (targets w) (listeners w) (pendingDetach w),
     [InputSetGroup inp; Fire (DidChangeActiveInstance (activeInstance s'))]).
Proof.
  intros Hinst. cbn zeta. unfold onDidActiveEditorChange. rewrite Hinst.
  unfold bind at 1, emit at 1.
  change (_setActiveInstance (Some instance)) with (setActiveInstance instance).
  rewrite setActiveInstance_run. done.
Qed.

(** X5. When the active editor becomes a terminal editor that shows a
    session of the live list, the editor input is given its group, that
    session becomes the active one and the active-changed notification
    carries it.  When the active editor then becomes anything else (no
    editor, another kind of editor, a terminal editor without session) the
    listener does nothing at all: the session stays the active one and no
    notification is fired. *)
Theorem active_editor_change_keeps_active_terminal
    (w : World) (inp : TerminalEditorInput) (instance : ITerminalInstance)
    (other : option IEditorInput) :
  terminalInstance inp = Some instance →
  (0 < occurrences instance (instances (svc w)))%nat →
  shown_session other = None →
  let r1 := onDidActiveEditorChange (Some (TerminalInput inp)) w in
  let r2 := onDidActiveEditorChange other (world r1) in
  ∃ e, e ∈ instances (svc w)
       ∧ same_object instance e = true
       ∧ activeInstance (svc (world r1)) = Some e
       ∧ effects r1 = [InputSetGroup inp; Fire (DidChangeActiveInstance (Some e))]
       ∧ r2 = (Returned tt, world r1, [])
       ∧ activeInstance (svc (world r2)) = Some e.
Proof.
  intros Hinst Hocc Hother. cbn zeta.
  rewrite (onDidActiveEditorChange_terminal inp instance w Hinst). cbn zeta.
  destruct (activeInstance_after_set instance (svc w) Hocc) as (e & Hmem & Hsame & Hact).
  exists e. cbn [world effects fst snd svc]. rewrite Hact.
  assert (Hnoop : ∀ w1, onDidActiveEditorChange other w1 = (Returned tt, w1, [])).
  { intros w1. destruct other as [[inp'|]|]; cbn in Hother; [|done..].
    unfold onDidActiveEditorChange. by rewrite Hother. }
  rewrite Hnoop. done.
Qed.

Lemma active_editor_change_keeps_active_terminal_witness :
  let w := world (Sample.two_tabs_first_active initialWorld) in
  let r1 := onDidActiveEditorChange (Some (TerminalInput Sample.split_editor)) w in
  let r2 := onDidActiveEditorChange (Some (OtherInput 7)) (world r1) in
  ∃ e, same_object Sample.b e = true
       ∧ activeInstance (svc (world r1)) = Some e
       ∧ activeInstance (svc (world r2)) = Some e.
Proof.
  cbn zeta.
  destruct (active_editor_change_keeps_active_terminal
              (world (Sample.two_tabs_first_active initialWorld))
              Sample.split_editor Sample.b (Some (OtherInput 7)))
    as (e & _ & Hsame & Hact & _ & _ & Hkept);
    [reflexivity | vm_compute; lia | reflexivity |].
  exists e. split; [exact Hsame|]. split; [exact Hact|exact Hkept].
Defined.

(** ** Adoption, written out *)

Lemma onDidVisibleEditorsChange_find (knownIds : list Z) (visibleEditors : list IEditorInput) :
  List.find
    (λ input,
       match match input with
             | TerminalInput inp => instanceId <$> terminalInstance inp
             | OtherInput _ => None
             end with
       | None => false
       | Some inputId => negb (bool_decide (inputId ∈ knownIds))
       end)
    (_getActiveTerminalEditors visibleEditors)
  = (λ p, TerminalInput p.1) <$> first_unknown knownIds visibleEditors.
Proof.
  induction visibleEditors as [|e es IH]; [done|].
  destruct e as [inp|ref]; cbn; [|exact IH].
  destruct (terminalInstance inp) as [i|] eqn:Hi; cbn; [|exact IH].
  destruct (instanceId i =? 0); cbn; [exact IH|].
  rewrite Hi. cbn. destruct (bool_decide _); cbn; [exact IH|done].
Qed.

Lemma first_unknown_Some knownIds visibleEditors inp i :
  first_unknown knownIds visibleEditors = Some (inp, i) →
  TerminalInput inp ∈ visibleEditors
  ∧ terminalInstance inp = Some i
  ∧ instanceId i ≠ 0
  ∧ instanceId i ∉ knownIds.
Proof.
  induction visibleEditors as [|e es IH]; [done|].
  destruct e as [inp'|ref]; cbn.
  - destruct (terminalInstance inp') as [i'|] eqn:Hi.
    + destruct (Z.eqb_spec (instanceId i') 0) as [Hz|Hz]; cbn.
      * intros H. destruct (IH H) as (? & ? & ? & ?). repeat split; try done. by right.
      * destruct (bool_decide_reflect (instanceId i' ∈ knownIds)) as [Hk|Hk]; cbn.
        -- intros H. destruct (IH H) as (? & ? & ? & ?).
           repeat split; try done. by right.
        -- intros [= -> ->]. repeat split; try done. by left.
    + intros H. destruct (IH H) as (? & ? & ? & ?). repeat split; try done. by right.
  - intros H. destruct (IH H) as (? & ? & ? & ?). repeat split; try done. by right.
Qed.

Lemma onDidVisibleEditorsChange_run visibleEditors w :
  onDidVisibleEditorsChange visibleEditors w
  = match first_unknown (instanceId <$> instances (svc w)) visibleEditors with
    | Some (unknownEditor, instance) =>
        (Returned tt,
         mkWorld
           (mkService
              (instances (svc w) ++ [instance])
              (_activeInstanceIndex (svc w))
              (_isShuttingDown (svc w))
              (<[path (inst_resource instance) := unknownEditor]> (_editorInputs (svc w)))
              (_launchConfigs (svc w))
              (_instanceDisposables (svc w)))
           (next_ref w) (targets w) (listeners w) (pendingDetach w),
         [])
    | None => (Returned tt, w, [])
    end.
Proof.
  destruct w as [[l ix sd ei lc ids] n t ls pd].
  unfold onDidVisibleEditorsChange, bind at 1, this at 1.
  cbn [svc instances fst snd]. rewrite onDidVisibleEditorsChange_find.
  destruct (first_unknown _ _) as [[unknownEditor instance]|] eqn:Hfirst; [|done].
  apply first_unknown_Some in Hfirst as (_ & Hinst & _). cbn. rewrite Hinst. run. done.
Qed.

(** X6. The visible-editors-changed listener adopts exactly the first
    visible terminal editor whose session has a non-zero instanceId that no
    session of the live list has: that editor is stored under the resource
    path of its session and the session is appended.  When there is no such
    editor (in particular for a session with instanceId 0, which the
    truthiness test of the listener drops) the listener changes nothing. *)
Theorem adoption_takes_first_unknown (w : World) (visibleEditors : list IEditorInput) :
  let r := onDidVisibleEditorsChange visibleEditors w in
  let s := svc w in
  let s' := svc (world r) in
  (first_unknown (instanceId <$> instances s) visibleEditors = None → world r = w)
  ∧ (∀ unknownEditor instance,
       first_unknown (instanceId <$> instances s) visibleEditors
         = Some (unknownEditor, instance) →
       instances s' = instances s ++ [instance]
       ∧ _editorInputs s'
         = <[path (inst_resource instance) := unknownEditor]> (_editorInputs s)
       ∧ terminalInstance unknownEditor = Some instance
       ∧ instanceId instance ≠ 0)
  ∧ (∀ inp i, terminalInstance inp = Some i → instanceId i = 0 →
       onDidVisibleEditorsChange [TerminalInput inp] w = (Returned tt, w, [])).
Proof.
  cbn zeta. rewrite onDidVisibleEditorsChange_run. split; [|split].
  - by intros ->.
  - intros unknownEditor instance Hfirst. rewrite Hfirst. cbn.
    apply first_unknown_Some in Hfirst as (_ & Hinst & Hid & _). done.
  - intros inp i Hinst Hid. rewrite onDidVisibleEditorsChange_run. cbn.
    rewrite Hinst, Hid. done.
Qed.

Lemma adoption_takes_first_unknown_witness :
  let w := world (Sample.one_tab initialWorld) in
  let visibleEditors :=
    [OtherInput 7; TerminalInput Sample.input_a; TerminalInput Sample.split_editor] in
  instances (svc (world (onDidVisibleEditorsChange visibleEditors w)))
  = instances (svc w) ++ [Sample.b].
Proof.
  cbn zeta.
  destruct (adoption_takes_first_unknown (world (Sample.one_tab initialWorld))
              [OtherInput 7; TerminalInput Sample.input_a;
               TerminalInput Sample.split_editor])
    as (_ & Hadopt & _).
  destruct (Hadopt Sample.split_editor Sample.b) as (Hl & _).
  - vm_compute. reflexivity.
  - exact Hl.
Defined.

(** X7. Adoption never gives the live list two sessions with one
    instanceId: if the instanceIds of the live list are pairwise distinct
    before a visible-editors-changed notification, they are after it. *)
Theorem adoption_keeps_ids_distinct (w : World) (visibleEditors : list IEditorInput) :
  NoDup (instanceId <$> instances (svc w)) →
  NoDup (instanceId <$>
           instances (svc (world (onDidVisibleEditorsChange visibleEditors w)))).
Proof.
  intros Hnodup. rewrite onDidVisibleEditorsChange_run.
  destruct (first_unknown _ _) as [[unknownEditor instance]|] eqn:Hfirst; [|done].
  apply first_unknown_Some in Hfirst as (_ & _ & _ & Hnew).
  cbn. rewrite fmap_app. apply NoDup_app. split; [done|].
  split; [|apply NoDup_singleton].
  intros id Hid Hid'. apply list_elem_of_singleton in Hid'. by subst id.
Qed.

Lemma adoption_keeps_ids_distinct_witness :
  NoDup (instanceId <$>
           instances (svc (world (onDidVisibleEditorsChange
                                    [TerminalInput Sample.split_editor]
                                    (world (Sample.one_tab initialWorld)))))).
Proof.
  apply (adoption_keeps_ids_distinct (world (Sample.one_tab initialWorld))
           [TerminalInput Sample.split_editor]).
  vm_compute. repeat constructor; intros H; inversion H.
Defined.

(** ** Launch configurations *)

(** X8. getInstance creates a session from the stored launch configuration
    of the resource but does not register it: the fields of the service and
    the attached listeners are unchanged and nothing is fired, whereas
    resolveResource on the same store appends its new session to the live
    list.  Without a launch configuration getInstance returns undefined and
    leaves the store as it is. *)
Theorem getInstance_registers_nothing
    (env : Collaborators) (w : World) (resource : URI) :
  let r := getInstance env resource w in
  svc (world r) = svc w
  ∧ listeners (world r) = listeners w
  ∧ effects r = []
  ∧ (_launchConfigs (svc w) !! path resource = None →
     r = (Returned None, w, []))
  ∧ (∀ launchConfig,
       _launchConfigs (svc w) !! path resource = Some launchConfig →
       let p := createInstance env (LaunchOptions launchConfig)
                  (target launchConfig) (Some resource) (next_ref w) in
       let instance := mkInstance (next_ref w) p.1 p.2 in
       outcome r = Returned (Some instance)
       ∧ next_ref (world r) = S (next_ref w)
       ∧ instances (svc (world (resolveResource env resource w)))
         = instances (svc w) ++ [instance]).
Proof.
  cbn zeta.
  destruct (_launchConfigs (svc w) !! path resource) as [launchConfig|] eqn:Hlc.
  - assert (Hrun : getInstance env resource w
                   = (Returned (Some (mkInstance (next_ref w)
                        (createInstance env (LaunchOptions launchConfig)
                           (target launchConfig) (Some resource) (next_ref w)).1
                        (createInstance env (LaunchOptions launchConfig)
                           (target launchConfig) (Some resource) (next_ref w)).2)),
                      mkWorld (svc w) (S (next_ref w)) (targets w) (listeners w)
                              (pendingDetach w),
                      [])).
    { destruct w as [[l ix sd ei lc ids] n t ls pd].
      cbn [svc _launchConfigs next_ref] in *.
      unfold getInstance, bind at 1, this at 1. cbn [svc _launchConfigs fst snd].
      rewrite Hlc. run. by destruct (createInstance env _ _ _ n). }
    rewrite Hrun. split; [done|]. split; [done|]. split; [done|].
    split; [intros [=]|].
    intros ? [= <-]. rewrite (resolveResource_run env resource launchConfig w Hlc).
    done.
  - assert (Hrun : getInstance env resource w = (Returned None, w, [])).
    { unfold getInstance, bind at 1, this at 1. by rewrite Hlc. }
    rewrite Hrun. split; [done|]. split; [done|]. split; [done|].
    split; [done|]. intros ? [=].
Qed.

(** X9. After a successful resolveResource the identity of the resource has
    the editor input that the call returned: getInput finds it and every
    getOrCreateResource call for that identity returns it without changing
    anything.  The launch configuration is not used up: resolveResource for
    the same resource succeeds again and returns another editor input. *)
Theorem resolveResource_then_lookup
    (env : Collaborators) (w : World) (resource : URI)
    (launchConfig : ICreateTerminalOptions) (a : InstanceOrUri) (split : bool) :
  _launchConfigs (svc w) !! path resource = Some launchConfig →
  path (resourceOf a) = path resource →
  let r := resolveResource env resource w in
  ∃ input,
    outcome r = Returned input
    ∧ input_resource input = resource
    ∧ getInput (svc (world r)) resource = Some input
    ∧ getOrCreateResource env a split (world r)
      = (Returned (IsInput input), world r, [])
    ∧ ∃ input2,
        outcome (resolveResource env resource (world r)) = Returned input2
        ∧ input2 ≠ input.
Proof.
  intros Hlc Hkey. cbn zeta.
  rewrite (resolveResource_run env resource launchConfig w Hlc). cbn zeta.
  eexists. split; [reflexivity|]. split; [done|].
  split; [apply lookup_insert_eq|].
  split.
  - apply getOrCreateResource_hit. rewrite Hkey. apply lookup_insert_eq.
  - erewrite resolveResource_run by exact Hlc. cbn zeta.
    eexists. split; [reflexivity|]. cbn. intros [= Href _]. lia.
Qed.

Lemma resolveResource_then_lookup_witness :
  let w := world (requestDetachInstance_then 0 None
                    (world (getOrCreateResource Sample.env (AUri Sample.term5)
                              false initialWorld))) in
  let r := resolveResource Sample.env Sample.term5 w in
  ∃ input,
    outcome r = Returned input
    ∧ getOrCreateResource Sample.env (AUri Sample.term5) false (world r)
      = (Returned (IsInput input), world r, []).
Proof.
  cbn zeta.
  destruct (resolveResource_then_lookup Sample.env
              (world (requestDetachInstance_then 0 None
                        (world (getOrCreateResource Sample.env (AUri Sample.term5)
                                  false initialWorld))))
              Sample.term5
              (mkCreateTerminalOptions
                 (Some (mkShellLaunchConfig (Some (FromBackend None))))
                 (Some Editor))
              (AUri Sample.term5) false)
    as (input & Hout & _ & _ & Hhit & _);
    [vm_compute; reflexivity | reflexivity |].
  exists input. split; [exact Hout|exact Hhit].
Defined.

(** X10. A terminal of another window, from request to session: a
    getOrCreateResource call with a URI whose identity has no editor input
    and that parses to a non-zero instanceId sends one detach request (and
    nothing can be resolved yet when no launch configuration is stored);
    when the backend answers, the answer is stored as the launch
    configuration of that identity with the editor as target; resolveResource
    then succeeds, hands that configuration and the URI to the instance
    service and registers the session it gets. *)
Theorem detach_request_then_resolve
    (env : Collaborators) (w : World) (u : URI) (split : bool) (id : Z)
    (attachPersistentProcess : option IProcessDetails) :
  _editorInputs (svc w) !! path u = None →
  tid_instanceId (parseTerminalUri env u) = Some id →
  id ≠ 0 →
  let r1 := getOrCreateResource env (AUri u) split w in
  let r2 := requestDetachInstance_then (length (pendingDetach w))
              attachPersistentProcess (world r1) in
  let r3 := resolveResource env u (world r2) in
  let launchConfig :=
    mkCreateTerminalOptions
      (Some (mkShellLaunchConfig (Some (FromBackend attachPersistentProcess))))
      (Some Editor) in
  let p := createInstance env (LaunchOptions launchConfig) (Some Editor) (Some u)
             (next_ref w) in
  let instance := mkInstance (next_ref w) p.1 p.2 in
  effects r1 = [RequestDetachInstance (workspaceId (parseTerminalUri env u)) id]
  ∧ pendingDetach (world r1) = pendingDetach w ++ [path u]
  ∧ (_launchConfigs (svc w) !! path u = None →
     outcome (resolveResource env u (world r1)) = Thrown "could not resolve resource")
  ∧ _launchConfigs (svc (world r2)) !! path u = Some launchConfig
  ∧ pendingDetach (world r2) = pendingDetach w
  ∧ effects r2 = []
  ∧ outcome r3 = Returned (mkInput (S (next_ref w)) u (Some instance))
  ∧ instances (svc (world r3)) = instances (svc w) ++ [instance]
  ∧ effects r3 = [Fire DidChangeInstances].
Proof.
  intros Hmiss Hparse Hid. cbn zeta.
  assert (Hr1 : getOrCreateResource env (AUri u) split w
                = (Returned (IsUri (getTerminalUri env "dfsldjfkdslfsjdflksdjf" 2
                                      (Some "fake"))),
                   mkWorld (svc w) (next_ref w) (targets w) (listeners w)
                           (pendingDetach w ++ [path u]),
                   [RequestDetachInstance (workspaceId (parseTerminalUri env u)) id])).
  { destruct w as [[l ix sd ei lc ids] n t ls pd]. cbn [svc _editorInputs] in Hmiss.
    unfold getOrCreateResource, bind at 1, this at 1.
    cbn [svc _editorInputs fst snd resourceOf]. rewrite Hmiss. run.
    rewrite Hparse. destruct (Z.eqb_spec id 0) as [?|_]; [done|]. run. done. }
  rewrite Hr1. cbn [world effects fst snd pendingDetach].
  split; [done|]. split; [done|]. split.
  { intros Hnone. unfold resolveResource, bind at 1, this at 1.
    cbn [svc fst snd]. by rewrite Hnone. }
  assert (Hr2 : requestDetachInstance_then (length (pendingDetach w))
                  attachPersistentProcess
                  (mkWorld (svc w) (next_ref w) (targets w) (listeners w)
                           (pendingDetach w ++ [path u]))
                = (Returned tt,
                   mkWorld
                     (set_launchConfigs
                        (<[path u :=
                             mkCreateTerminalOptions
                               (Some (mkShellLaunchConfig
                                        (Some (FromBackend attachPersistentProcess))))
                               (Some Editor)]> (_launchConfigs (svc w)))
                        (svc w))
                     (next_ref w) (targets w) (listeners w) (pendingDetach w),
                   [])).
  { unfold requestDetachInstance_then.
    rewrite list_lookup_middle by done. by rewrite delete_middle, app_nil_r. }
  rewrite Hr2. cbn [world effects fst snd pendingDetach svc].
  assert (Hlc : _launchConfigs
                  (set_launchConfigs
                     (<[path u :=
                          mkCreateTerminalOptions
                            (Some (mkShellLaunchConfig
                                     (Some (FromBackend attachPersistentProcess))))
                            (Some Editor)]> (_launchConfigs (svc w)))
                     (svc w)) !! path u
                = Some (mkCreateTerminalOptions
                          (Some (mkShellLaunchConfig
                                   (Some (FromBackend attachPersistentProcess))))
                          (Some Editor))).
  { destruct (svc w). cbn. apply lookup_insert_eq. }
  split; [exact Hlc|]. split; [done|]. split; [done|].
  erewrite resolveResource_run by (cbn [svc]; exact Hlc). cbn zeta.
  cbn [world effects outcome fst snd svc next_ref instances target].
  destruct (svc w). done.
Qed.

Lemma detach_request_then_resolve_witness :
  let r1 := getOrCreateResource Sample.env (AUri Sample.term5) false initialWorld in
  let r2 := requestDetachInstance_then 0 None (world r1) in
  let r3 := resolveResource Sample.env Sample.term5 (world r2) in
  effects r1 = [RequestDetachInstance "window1" 5]
  ∧ effects r3 = [Fire DidChangeInstances].
Proof.
  cbn zeta.
  destruct (detach_request_then_resolve Sample.env initialWorld Sample.term5
              false 5 None)
    as (H1 & _ & _ & _ & _ & _ & _ & _ & H3);
    [vm_compute; reflexivity | vm_compute; reflexivity | discriminate |].
  split; [|exact H3]. rewrite H1. vm_compute. reflexivity.
Defined.

(** ** detachActiveEditorInstance *)

(** X11. detachActiveEditorInstance fails without touching anything when
    there is nothing to detach: it throws "Active editor is not a terminal"
    when the active editor is missing or not a terminal editor, and
    "Terminal is already detached" when the terminal editor has no session.
    Otherwise it does what detachInstance does for the session of the active
    editor and returns that session. *)
Theorem detachActiveEditorInstance_outcomes
    (w : World) (activeEditor : option IEditorInput) :
  let r := detachActiveEditorInstance activeEditor w in
  match activeEditor with
  | Some (TerminalInput inp) =>
      match terminalInstance inp with
      | Some instance =>
          outcome r = Returned instance
          ∧ world r = world (detachInstance instance w)
          ∧ effects r = effects (detachInstance instance w)
          ∧ getInput (svc (world r)) (inst_resource instance) = None
      | None => r = (Thrown "Terminal is already detached", w, [])
      end
  | _ => r = (Thrown "Active editor is not a terminal", w, [])
  end.
Proof.
  cbn zeta. destruct activeEditor as [[inp|ref]|]; [|done..].
  destruct (terminalInstance inp) as [instance|] eqn:Hinst.
  - assert (Hrun : detachActiveEditorInstance (Some (TerminalInput inp)) w
                   = (Returned instance, world (detachInstance instance w),
                      effects (detachInstance instance w))).
    { unfold detachActiveEditorInstance. rewrite Hinst. unfold bind.
      rewrite detachInstance_run. cbn zeta. cbn [world effects fst snd].
      unfold ret. by rewrite app_nil_r. }
    rewrite Hrun. repeat (split; [done|]).
    cbn [world fst snd]. unfold getInput.
    rewrite detachInstance_service. apply lookup_delete_eq.
  - unfold detachActiveEditorInstance. by rewrite Hinst.
Qed.

(** ** What a request can write *)

Section Footprint.

Variable env : Collaborators.
Variable group : TerminalEditorInput → option nat.

Lemma getOrCreateResource_uri_svc u split w :
  _editorInputs (svc w) !! path u = None →
  svc (world (getOrCreateResource env (AUri u) split w)) = svc w.
Proof.
  destruct w as [[l ix sd ei lc ids] n t ls pd]. cbn [svc _editorInputs].
  intros H. unfold getOrCreateResource, bind at 1, this at 1.
  cbn [svc _editorInputs fst snd resourceOf]. rewrite H. run.
  destruct (tid_instanceId _) as [id|]; [destruct (negb _)|]; run; done.
Qed.

Lemma getOrCreateResource_changes a split w :
  rtc change (svc w) (svc (world (getOrCreateResource env a split w))).
Proof.
  destruct (_editorInputs (svc w) !! path (resourceOf a)) as [cachedEditor|]
    eqn:Hcache.
  { rewrite (getOrCreateResource_hit env a split w cachedEditor Hcache).
    apply rtc_refl. }
  destruct a as [i|d|u].
  - rewrite (getOrCreateResource_instance_run env i split w Hcache).
    apply rtc_once, registered.
  - rewrite (getOrCreateResource_deserialized_run env d split w Hcache).
    apply rtc_once, registered.
  - rewrite (getOrCreateResource_uri_svc u split w Hcache). apply rtc_refl.
Qed.

Lemma resolveResource_changes resource w :
  rtc change (svc w) (svc (world (resolveResource env resource w))).
Proof.
  destruct (_launchConfigs (svc w) !! path resource) as [launchConfig|] eqn:Hlc.
  - rewrite (resolveResource_run env resource launchConfig w Hlc).
    apply rtc_once, registered.
  - unfold resolveResource, bind at 1, this at 1. rewrite Hlc. apply rtc_refl.
Qed.

Lemma getInstance_svc resource w :
  svc (world (getInstance env resource w)) = svc w.
Proof.
  destruct w as [[l ix sd ei lc ids] n t ls pd].
  unfold getInstance, bind at 1, this at 1. cbn [svc _launchConfigs fst snd].
  destruct (lc !! _); run; [|done]. by destruct (createInstance env _ _ _ n).
Qed.

Lemma detachInstance_changes instance w :
  rtc change (svc w) (svc (world (detachInstance instance w))).
Proof. rewrite world_detachInstance. apply rtc_once, detached. Qed.

Lemma setActiveInstance_changes instance w :
  rtc change (svc w) (svc (world (setActiveInstance instance w))).
Proof.
  rewrite setActiveInstance_run. cbn zeta. cbn [world fst snd svc].
  pose proof (findIndex_range (same_object instance) (instances (svc w))) as [Hlo _].
  destruct (svc w) as [l ix sd ei lc ids]. cbn in *.
  apply rtc_once.
    by apply (activated (mkService l ix sd ei lc ids)
                (findIndex (same_object instance) l)).
Qed.

Lemma onDidActiveEditorChange_changes activeEditor w :
  rtc change (svc w) (svc (world (onDidActiveEditorChange activeEditor w))).
Proof.
  destruct activeEditor as [[inp|ref]|]; [|apply rtc_refl..].
  destruct (terminalInstance inp) as [instance|] eqn:Hinst.
  - rewrite (onDidActiveEditorChange_terminal inp instance w Hinst). cbn zeta.
    cbn [world fst snd svc].
    pose proof (findIndex_range (same_object instance) (instances (svc w))) as [Hlo _].
    destruct (svc w) as [l ix sd ei lc ids]. cbn in *.
    apply rtc_once.
    by apply (activated (mkService l ix sd ei lc ids)
                (findIndex (same_object instance) l)).
  - unfold onDidActiveEditorChange. rewrite Hinst. apply rtc_refl.
Qed.

Lemma onDidVisibleEditorsChange_changes visibleEditors w :
  rtc change (svc w) (svc (world (onDidVisibleEditorsChange visibleEditors w))).
Proof.
  rewrite onDidVisibleEditorsChange_run.
  destruct (first_unknown _ _) as [[unknownEditor instance]|]; [|apply rtc_refl].
  apply rtc_once, adopted.
Qed.

Lemma onDidCloseEditor_changes editor w :
  rtc change (svc w) (svc (world (onDidCloseEditor editor w))).
Proof.
  destruct editor as [inp|ref]; [|apply rtc_refl].
  unfold onDidCloseEditor. destruct (terminalInstance inp); [|apply rtc_refl].
  destruct w as [[l ix sd ei lc ids] n t ls pd]. run.
  apply rtc_once. apply (closed (mkService l ix sd ei lc ids)).
Qed.

Lemma requestDetachInstance_then_changes n app w :
  rtc change (svc w) (svc (world (requestDetachInstance_then n app w))).
Proof.
  destruct w as [[l ix sd ei lc ids] ref t ls pd].
  unfold requestDetachInstance_then.
  destruct (pd !! n) as [inputKey|]; [|apply rtc_refl].
  apply rtc_once. by apply (configured (mkService l ix sd ei lc ids)).
Qed.

Lemma fire_onDidDisposeInstance_run instance w :
  fire_onDidDisposeInstance instance w
  = (Returned tt, world (detachInstance instance w),
     effects (detachInstance instance w) ++ [Fire (DidDisposeInstance instance)]).
Proof.
  unfold fire_onDidDisposeInstance, bind. rewrite detachInstance_run. done.
Qed.

Lemma forward_changes ev instance w :
  rtc change (svc w) (svc (world (forward ev instance w))).
Proof.
  destruct ev; [apply rtc_refl|]. cbn [forward].
  rewrite fire_onDidDisposeInstance_run. apply detachInstance_changes.
Qed.

Lemma forward_returns ev instance w :
  outcome (forward ev instance w) = Returned tt.
Proof.
  destruct ev; [done|]. cbn [forward]. by rewrite fire_onDidDisposeInstance_run.
Qed.

Lemma times_forward_changes n ev instance w :
  rtc change (svc w) (svc (world (times n (forward ev instance) w))).
Proof.
  revert w. induction n as [|n IH]; intros w; [apply rtc_refl|].
  cbn [times]. unfold bind.
  pose proof (forward_changes ev instance w) as Hstep.
  pose proof (forward_returns ev instance w) as Hret.
  destruct (forward ev instance w) as [[o w1] e1]. cbn in Hret, Hstep. subst o.
  specialize (IH w1).
  destruct (times n (forward ev instance) w1) as [[o2 w2] e2].
  by etrans.
Qed.

Lemma instance_fires_changes ev instance w :
  rtc change (svc w) (svc (world (instance_fires ev instance w))).
Proof. apply times_forward_changes. Qed.

Lemma dispose_each_svc values w :
  svc (world (dispose_each values w)) = svc w.
Proof.
  revert w. induction values as [|d values IH]; intros w; [done|].
  cbn [dispose_each]. unfold bind, dispose at 1.
  destruct w as [s n t ls pd]. specialize (IH (mkWorld s n t (filter (λ l, sub_ref l ∉ sub_ref <$> d) ls) pd)).
  destruct (dispose_each values _) as [[o2 w2] e2]. done.
Qed.

Lemma constructor_toDisposable_svc w :
  svc (world (constructor_toDisposable w)) = svc w.
Proof.
  unfold constructor_toDisposable, bind, this.
  pose proof (dispose_each_svc ((map_to_list (_instanceDisposables (svc w))).*2) w) as H.
  destruct (dispose_each _ w) as [[o2 w2] e2]. done.
Qed.

Lemma openEditor_svc x sideGroup split w :
  svc (world (openEditor env x sideGroup split w))
  = svc (world (getOrCreateResource env (asInstanceOrUri x) false w)).
Proof.
  unfold openEditor, bind.
  destruct (getOrCreateResource env (asInstanceOrUri x) false w) as [[[v|msg] w1] e1];
    [|done].
  by destruct v.
Qed.

Lemma splitInstance_changes instanceToSplit c w :
  rtc change (svc w) (svc (world (splitInstance env group instanceToSplit c w))).
Proof.
  unfold splitInstance, bind at 1, get_target at 1.
  unfold bind at 1, this at 1. cbn [fst snd].
  unfold bind at 1, terminalInstanceService_createInstance at 1.
  destruct w as [s n t ls pd]. cbn [svc].
  destruct (createInstance env _ _ _ n) as [id res].
  unfold bind at 1.
  pose proof (openEditor_svc (OfInstance (mkInstance n id res)) false (Some true)
                (mkWorld s (S n) t ls pd)) as Hopen.
  pose proof (getOrCreateResource_changes (AnInstance (mkInstance n id res)) false
                (mkWorld s (S n) t ls pd)) as Hstep.
  cbn [asInstanceOrUri] in Hopen. rewrite <- Hopen in Hstep. cbn [svc] in Hstep.
  destruct (openEditor env _ _ _ _) as [[[v|msg] w1] e1]; exact Hstep.
Qed.

Lemma revealActiveEditor_world preserveFocus w :
  world (revealActiveEditor group preserveFocus w) = w.
Proof.
  unfold revealActiveEditor, bind, this. cbn [fst snd].
  destruct (activeInstance (svc w)); [|done].
  by destruct (_editorInputs (svc w) !! _).
Qed.

Lemma detachActiveEditorInstance_changes activeEditor w :
  rtc change (svc w) (svc (world (detachActiveEditorInstance activeEditor w))).
Proof.
  destruct activeEditor as [[inp|ref]|]; [|apply rtc_refl..].
  unfold detachActiveEditorInstance.
  destruct (terminalInstance inp) as [instance|]; [|apply rtc_refl].
  unfold bind. rewrite detachInstance_run. cbn zeta.
  apply rtc_once, detached.
Qed.

Lemma times_forward_disposed_world n ev instance w :
  world (times n (forward_disposed ev instance) w) = w.
Proof.
  revert w. induction n as [|n IH]; intros w; [done|].
  cbn [times]. unfold bind.
  assert (Hrun : ∃ e, forward_disposed ev instance w = (Returned tt, w, e)).
  { destruct ev; by eexists. }
  destruct Hrun as [e ->]. specialize (IH w).
  by destruct (times n (forward_disposed ev instance) w) as [[o2 w2] e2].
Qed.

Lemma instance_fires_disposed_world ev instance w :
  world (instance_fires_disposed ev instance w) = w.
Proof. apply times_forward_disposed_world. Qed.

(** Every request but a shutdown notification that is heard writes the
    fields of the service through the elementary writes only. *)
Lemma perform_step disposed r w :
  step (is_WillShutdown r && negb disposed)
       (svc w) (svc (world (perform env group disposed r w))).
Proof.
  unfold step.
  destruct r as [x b|u|u|x sg b|i c|pf|i|e|i| |e|es|e|ev i|n p| ];
    cbn [perform is_WillShutdown andb];
    try (destruct disposed; cbn [negb]; [apply rtc_refl|]).
  - pose proof (getOrCreateResource_changes x b w) as H.
    unfold bind. by destruct (getOrCreateResource env x b w) as [[[?|?] ?] ?].
  - pose proof (resolveResource_changes u w) as H.
    unfold bind. by destruct (resolveResource env u w) as [[[?|?] ?] ?].
  - pose proof (getInstance_svc u w) as H.
    unfold bind. destruct (getInstance env u w) as [[[?|?] ?] ?];
      cbn in *; rewrite H; apply rtc_refl.
  - pose proof (getOrCreateResource_changes (asInstanceOrUri x) false w) as H.
    rewrite <- (openEditor_svc x sg b) in H.
    unfold bind. by destruct (openEditor env x sg b w) as [[[?|?] ?] ?].
  - pose proof (splitInstance_changes i c w) as H.
    unfold bind. by destruct (splitInstance env group i c w) as [[[?|?] ?] ?].
  - pose proof (revealActiveEditor_world pf w) as H.
    unfold bind. destruct (revealActiveEditor group pf w) as [[[?|?] ?] ?];
      cbn in *; rewrite H; apply rtc_refl.
  - apply detachInstance_changes.
  - pose proof (detachActiveEditorInstance_changes e w) as H.
    unfold bind. by destruct (detachActiveEditorInstance e w) as [[[?|?] ?] ?].
  - apply setActiveInstance_changes.
  - by rewrite onWillShutdown_run.
  - apply onDidActiveEditorChange_changes.
  - apply onDidVisibleEditorsChange_changes.
  - apply onDidCloseEditor_changes.
  - destruct disposed.
    + rewrite instance_fires_disposed_world. apply rtc_refl.
    + apply instance_fires_changes.
  - apply requestDetachInstance_then_changes.
  - rewrite constructor_toDisposable_svc. apply rtc_refl.
Qed.

End Footprint.

(** ** What holds after any series of requests *)

Lemma change_well_formed s s' : change s s' → well_formed s → well_formed s'.
Proof.
  intros Hchange (Hidx & Hdom & Htarget).
  destruct Hchange as [key input ds i|key input i|key l|l|z Hz|key c Hc];
    unfold well_formed; cbn.
  - split; [done|]. split; [|done]. rewrite !dom_insert_L.
    by apply union_mono_l.
  - split; [done|]. split; [|done]. rewrite dom_insert_L.
    by apply union_subseteq_r'.
  - split; [done|]. split; [|done]. rewrite !dom_delete_L.
    by apply difference_mono_r.
  - done.
  - done.
  - split; [done|]. split; [done|]. intros key' c'.
    rewrite lookup_insert. case_decide; [by intros [= <-]|apply Htarget].
Qed.

Lemma change_flag s s' : change s s' → _isShuttingDown s' = _isShuttingDown s.
Proof. by destruct 1. Qed.

Lemma change_launchConfigs s s' :
  change s s' → dom (_launchConfigs s) ⊆ dom (_launchConfigs s').
Proof.
  destruct 1; cbn; try done. rewrite dom_insert_L. apply union_subseteq_r.
Qed.

Lemma step_well_formed b s s' : step b s s' → well_formed s → well_formed s'.
Proof.
  unfold step. destruct b.
  - intros -> H. by destruct s.
  - induction 1 as [|s1 s2 s3 H12 _ IH]; [done|].
    intros H. apply IH. by apply (change_well_formed s1).
Qed.

Lemma step_flag b s s' :
  step b s s' → _isShuttingDown s' = _isShuttingDown s || b.
Proof.
  unfold step. destruct b.
  - intros ->. destruct s. cbn. by rewrite orb_true_r.
  - rewrite orb_false_r. induction 1 as [|s1 s2 s3 H12 _ IH]; [done|].
    by rewrite IH, (change_flag s1 s2).
Qed.

Lemma step_launchConfigs b s s' :
  step b s s' → dom (_launchConfigs s) ⊆ dom (_launchConfigs s').
Proof.
  unfold step. destruct b.
  - intros ->. by destruct s.
  - induction 1 as [|s1 s2 s3 H12 _ IH]; [done|].
    etrans; [by apply change_launchConfigs|done].
Qed.

(** X12. Whatever series of method calls and notifications the service
    receives, starting from the empty registry (or from any registry where
    this holds): the stored active index is never below -1, the subscription
    map only has keys that the editor-input map has too, and every stored
    launch configuration has the editor as its target. *)
Theorem well_formed_after_requests
    (env : Collaborators) (group : TerminalEditorInput → option nat)
    (rs : list Request) (w : World) :
  well_formed (svc w) →
  well_formed initialService
  ∧ well_formed (svc (perform_all env group rs w)).
Proof.
  intros Hw. split.
  { unfold well_formed. cbn. split; [lia|]. split; [done|].
    intros key c. by rewrite lookup_empty. }
  unfold perform_all. generalize false as disposed.
  revert w Hw. induction rs as [|r rs IH]; intros w Hw disposed; [done|].
  cbn [perform_from]. apply IH.
  exact (step_well_formed _ (svc w) _ (perform_step env group disposed r w) Hw).
Qed.

Lemma well_formed_after_requests_witness :
  well_formed
    (svc (perform_all Sample.env no_group
            [GetOrCreateResource (AnInstance Sample.a) false;
             SetActiveInstance Sample.a;
             VisibleEditorsChanged [TerminalInput Sample.split_editor];
             DetachInstance Sample.a;
             InstanceFires OnDisposed Sample.b]
            initialWorld)).
Proof.
  apply (well_formed_after_requests Sample.env no_group
           [GetOrCreateResource (AnInstance Sample.a) false;
            SetActiveInstance Sample.a;
            VisibleEditorsChanged [TerminalInput Sample.split_editor];
            DetachInstance Sample.a;
            InstanceFires OnDisposed Sample.b]
           initialWorld).
  unfold well_formed. cbn. split; [lia|]. split; [done|].
  intros key c. by rewrite lookup_empty.
Defined.

Lemma shutdown_flag_from
    (env : Collaborators) (group : TerminalEditorInput → option nat)
    (disposed : bool) (rs : list Request) (w : World) :
  _isShuttingDown (svc (perform_from env group disposed rs w))
  = _isShuttingDown (svc w)
    || (if disposed then false else existsb is_WillShutdown (heard rs)).
Proof.
  revert w disposed. induction rs as [|r rs IH]; intros w disposed.
  { cbn. by destruct disposed; rewrite orb_false_r. }
  cbn [perform_from]. rewrite IH.
  rewrite (step_flag _ (svc w) _ (perform_step env group disposed r w)).
  destruct disposed; cbn [orb negb heard].
  - by rewrite andb_false_r, !orb_false_r.
  - rewrite andb_true_r.
    destruct (is_ServiceDisposed r) eqn:Hr.
    + destruct r; try discriminate Hr. cbn. by rewrite !orb_false_r.
    + cbn [existsb]. by rewrite orb_assoc.
Qed.

(** X13. The shutdown flag is written by the listener of line 64 and by
    nothing else, and that listener is registered with [this._register], so
    it is heard only until the service is disposed: after any series of
    requests the flag is set exactly when it was set before or a shutdown
    notification arrived before the first disposal of the service.  No
    request ever clears it. *)
Theorem shutdown_flag_after_requests
    (env : Collaborators) (group : TerminalEditorInput → option nat)
    (rs : list Request) (w : World) :
  _isShuttingDown (svc (perform_all env group rs w))
  = _isShuttingDown (svc w) || existsb is_WillShutdown (heard rs).
Proof. apply (shutdown_flag_from env group false). Qed.

(** A shutdown notification that arrives after the service was disposed
    reaches no listener. *)
Example shutdown_after_disposal_is_not_heard :
  _isShuttingDown
    (svc (perform_all Sample.env no_group [ServiceDisposed; WillShutdown]
            initialWorld)) = false
  ∧ _isShuttingDown
      (svc (perform_all Sample.env no_group [WillShutdown; ServiceDisposed]
              initialWorld)) = true.
Proof. split; vm_compute; reflexivity. Qed.

(** X14. Launch configurations are never removed: an identity that has one
    keeps one through any series of requests, so resolveResource for that
    identity succeeds at any later time (it never throws "could not resolve
    resource" again). *)
Theorem launch_configuration_persists
    (env : Collaborators) (group : TerminalEditorInput → option nat)
    (rs : list Request) (w : World) (resource : URI) :
  is_Some (_launchConfigs (svc w) !! path resource) →
  let w' := perform_all env group rs w in
  is_Some (_launchConfigs (svc w') !! path resource)
  ∧ ∃ input, outcome (resolveResource env resource w') = Returned input.
Proof.
  intros Hlc. cbn zeta.
  assert (Hkept : is_Some (_launchConfigs (svc (perform_all env group rs w))
                             !! path resource)).
  { unfold perform_all. generalize false as disposed.
    revert w Hlc. induction rs as [|r rs IH]; intros w Hlc disposed; [done|].
    cbn [perform_from]. apply IH.
    apply elem_of_dom. apply elem_of_dom in Hlc.
    by apply (step_launchConfigs _ (svc w) _ (perform_step env group disposed r w)). }
  split; [done|]. destruct Hkept as [launchConfig Hkept].
  rewrite (resolveResource_run env resource launchConfig _ Hkept). by eexists.
Qed.

Lemma launch_configuration_persists_witness :
  let w := world (requestDetachInstance_then 0 None
                    (world (getOrCreateResource Sample.env (AUri Sample.term5)
                              false initialWorld))) in
  let w' := perform_all Sample.env no_group
              [ResolveResource Sample.term5;
               DetachActiveEditorInstance None;
               WillShutdown;
               ServiceDisposed] w in
  ∃ input, outcome (resolveResource Sample.env Sample.term5 w') = Returned input.
Proof.
  cbn zeta.
  destruct (launch_configuration_persists Sample.env no_group
              [ResolveResource Sample.term5;
               DetachActiveEditorInstance None;
               WillShutdown;
               ServiceDisposed]
              (world (requestDetachInstance_then 0 None
                        (world (getOrCreateResource Sample.env (AUri Sample.term5)
                                  false initialWorld))))
              Sample.term5)
    as [_ H]; [vm_compute; eexists; reflexivity|exact H].
Defined.

(** ** Nothing is disposed once shutdown has begun *)

Section Quiet.

Variable env : Collaborators.
Variable group : TerminalEditorInput → option nat.

Lemma quiet_bind {A B} (c : M A) (k : A → M B) :
  quiet c → (∀ a, quiet (k a)) → quiet (bind c k).
Proof.
  intros Hc Hk w Hw. unfold bind. destruct (Hc w Hw) as [He Hf].
  destruct (c w) as [[[a|msg] w1] e1]; cbn in *; [|done].
  destruct (Hk a w1 Hf) as [He2 Hf2].
  destruct (k a w1) as [[o2 w2] e2]; cbn in *.
  split; [by apply Forall_app|done].
Qed.

Lemma quiet_this {B} (k : TerminalEditorService → M B) :
  (∀ s, _isShuttingDown s = true → quiet (k s)) → quiet (bind this k).
Proof.
  intros Hk w Hw. unfold bind, this. destruct (Hk (svc w) Hw w Hw) as [He Hf].
  destruct (k (svc w) w) as [[o2 w2] e2]; cbn in *. done.
Qed.

Lemma quiet_ret {A} (a : A) : quiet (ret a).
Proof. intros w Hw. by split; [constructor|]. Qed.

Lemma quiet_throw {A} msg : quiet (@throw A msg).
Proof. intros w Hw. by split; [constructor|]. Qed.

Lemma quiet_emit e : not_dispose e → quiet (emit e).
Proof. intros He w Hw. split; [by repeat constructor|done]. Qed.

Lemma quiet_update f :
  (∀ s, _isShuttingDown (f s) = _isShuttingDown s) → quiet (update f).
Proof.
  intros Hf [s n t ls pd] Hw. split; [constructor|]. cbn in *. by rewrite Hf.
Qed.

Lemma quiet_store {A} (c : M A) :
  (∀ w, svc (world (c w)) = svc w ∧ effects (c w) = []) → quiet c.
Proof.
  intros Hc w Hw. destruct (Hc w) as [Hs He]. rewrite Hs, He.
  by split; [constructor|].
Qed.

Lemma quiet_registerInstance inputKey input instance :
  quiet (_registerInstance inputKey input instance).
Proof.
  intros [[l ix sd ei lc ids] n t ls pd] Hw. unfold _registerInstance. run.
  by split; [repeat constructor|].
Qed.

Lemma quiet_getOrCreateResource a split : quiet (getOrCreateResource env a split).
Proof.
  intros w Hw.
  destruct (_editorInputs (svc w) !! path (resourceOf a)) as [cachedEditor|]
    eqn:Hcache.
  { rewrite (getOrCreateResource_hit env a split w cachedEditor Hcache).
    by split; [constructor|]. }
  destruct a as [i|d|u].
  - rewrite (getOrCreateResource_instance_run env i split w Hcache).
    by split; [repeat constructor|].
  - rewrite (getOrCreateResource_deserialized_run env d split w Hcache).
    by split; [repeat constructor|].
  - rewrite (getOrCreateResource_uri_svc env u split w Hcache). split; [|done].
    destruct w as [[l ix sd ei lc ids] n t ls pd].
    cbn [svc _editorInputs resourceOf] in Hcache.
    unfold getOrCreateResource, bind at 1, this at 1.
    cbn [svc _editorInputs fst snd resourceOf]. rewrite Hcache. run.
    destruct (tid_instanceId _) as [id|]; [destruct (negb _)|]; run;
      by repeat constructor.
Qed.

Lemma quiet_resolveResource resource : quiet (resolveResource env resource).
Proof.
  intros w Hw.
  destruct (_launchConfigs (svc w) !! path resource) as [launchConfig|] eqn:Hlc.
  - rewrite (resolveResource_run env resource launchConfig w Hlc).
    by split; [repeat constructor|].
  - assert (Hrun : resolveResource env resource w
                   = (Thrown "could not resolve resource", w, [])).
    { unfold resolveResource, bind at 1, this at 1. by rewrite Hlc. }
    rewrite Hrun. by split; [constructor|].
Qed.

Lemma quiet_createInstance a t r :
  quiet (terminalInstanceService_createInstance env a t r).
Proof.
  apply quiet_store. intros [s n ts ls pd].
  unfold terminalInstanceService_createInstance.
  by destruct (createInstance env a t r n).
Qed.

Lemma quiet_getInstance resource : quiet (getInstance env resource).
Proof.
  unfold getInstance. apply quiet_this. intros s _.
  destruct (_launchConfigs s !! _); [|apply quiet_ret].
  apply quiet_bind; [apply quiet_createInstance|intros; apply quiet_ret].
Qed.

Lemma quiet_detachInstance instance : quiet (detachInstance instance).
Proof.
  intros w Hw. rewrite detachInstance_run. cbn zeta. rewrite Hw.
  split; [|done].
  destruct (_editorInputs (svc w) !! _); by repeat constructor.
Qed.

Lemma quiet_setActiveInstance instance : quiet (setActiveInstance instance).
Proof.
  intros w Hw. rewrite setActiveInstance_run. cbn zeta.
  split; [by repeat constructor|]. by destruct w as [[] ? ? ? ?].
Qed.

Lemma quiet_openEditor x sideGroup split : quiet (openEditor env x sideGroup split).
Proof.
  unfold openEditor. apply quiet_bind; [apply quiet_getOrCreateResource|].
  intros [input|u]; apply quiet_ret.
Qed.

Lemma quiet_splitInstance i c : quiet (splitInstance env group i c).
Proof.
  unfold splitInstance.
  apply quiet_bind; [by apply quiet_store|]. intros t.
  apply quiet_this. intros s _.
  apply quiet_bind; [apply quiet_createInstance|]. intros instance.
  apply quiet_bind; [apply quiet_openEditor|]. intros; apply quiet_ret.
Qed.

Lemma quiet_revealActiveEditor preserveFocus :
  quiet (revealActiveEditor group preserveFocus).
Proof.
  unfold revealActiveEditor. apply quiet_this. intros s _.
  destruct (activeInstance s); [|apply quiet_ret].
  destruct (_editorInputs s !! _); [apply quiet_ret|apply quiet_throw].
Qed.

Lemma quiet_detachActiveEditorInstance activeEditor :
  quiet (detachActiveEditorInstance activeEditor).
Proof.
  unfold detachActiveEditorInstance.
  destruct activeEditor as [[inp|ref]|]; [|apply quiet_throw..].
  destruct (terminalInstance inp); [|apply quiet_throw].
  apply quiet_bind; [apply quiet_detachInstance|intros; apply quiet_ret].
Qed.

Lemma quiet_onDidActiveEditorChange activeEditor :
  quiet (onDidActiveEditorChange activeEditor).
Proof.
  unfold onDidActiveEditorChange.
  destruct activeEditor as [[inp|ref]|]; [|apply quiet_ret..].
  destruct (terminalInstance inp) as [instance|]; [|apply quiet_ret].
  apply quiet_bind; [by apply quiet_emit|intros _].
  apply (quiet_setActiveInstance instance).
Qed.

Lemma quiet_onDidVisibleEditorsChange visibleEditors :
  quiet (onDidVisibleEditorsChange visibleEditors).
Proof.
  intros w Hw. rewrite onDidVisibleEditorsChange_run.
  destruct (first_unknown _ _) as [[unknownEditor instance]|];
    by split; [constructor|].
Qed.

Lemma quiet_onDidCloseEditor editor : quiet (onDidCloseEditor editor).
Proof.
  unfold onDidCloseEditor. destruct editor as [inp|ref]; [|apply quiet_ret].
  destruct (terminalInstance inp); [|apply quiet_ret].
  apply quiet_this. intros s _. apply quiet_update. by intros [].
Qed.

Lemma quiet_times n (c : M unit) : quiet c → quiet (times n c).
Proof.
  intros Hc. induction n as [|n IH]; [apply quiet_ret|].
  cbn [times]. by apply quiet_bind.
Qed.

Lemma quiet_instance_fires ev instance : quiet (instance_fires ev instance).
Proof.
  intros w Hw. unfold instance_fires. apply quiet_times; [|done].
  destruct ev; cbn [forward]; [by apply quiet_emit|].
  unfold fire_onDidDisposeInstance.
  apply quiet_bind; [apply quiet_detachInstance|intros; by apply quiet_emit].
Qed.

Lemma quiet_requestDetachInstance_then n app :
  quiet (requestDetachInstance_then n app).
Proof.
  intros [[l ix sd ei lc ids] ref t ls pd] Hw. unfold requestDetachInstance_then.
  destruct (pd !! n); by split; [constructor|].
Qed.

Lemma quiet_dispose_each values : quiet (dispose_each values).
Proof.
  induction values as [|d values IH]; [apply quiet_ret|].
  cbn [dispose_each]. apply quiet_bind; [|done].
  apply quiet_store. by intros [s n t ls pd].
Qed.

Lemma quiet_instance_fires_disposed ev instance :
  quiet (instance_fires_disposed ev instance).
Proof.
  intros w Hw. unfold instance_fires_disposed. apply quiet_times; [|done].
  destruct ev; by apply quiet_emit.
Qed.

Lemma quiet_perform disposed r : quiet (perform env group disposed r).
Proof.
  destruct r as [x b|u|u|x sg b|i c|pf|i|e|i| |e|es|e|ev i|n p| ]; cbn [perform];
    try (destruct disposed; [apply quiet_ret|]).
  - apply quiet_bind; [apply quiet_getOrCreateResource|intros; apply quiet_ret].
  - apply quiet_bind; [apply quiet_resolveResource|intros; apply quiet_ret].
  - apply quiet_bind; [apply quiet_getInstance|intros; apply quiet_ret].
  - apply quiet_bind; [apply quiet_openEditor|intros; apply quiet_ret].
  - apply quiet_bind; [apply quiet_splitInstance|intros; apply quiet_ret].
  - apply quiet_bind; [apply quiet_revealActiveEditor|intros; apply quiet_ret].
  - apply quiet_detachInstance.
  - apply quiet_bind; [apply quiet_detachActiveEditorInstance|intros; apply quiet_ret].
  - apply quiet_setActiveInstance.
  - intros w Hw. rewrite onWillShutdown_run.
    split; [constructor|]. by destruct w as [[] ? ? ? ?].
  - apply quiet_onDidActiveEditorChange.
  - apply quiet_onDidVisibleEditorsChange.
  - apply quiet_onDidCloseEditor.
  - destruct disposed;
      [apply quiet_instance_fires_disposed|apply quiet_instance_fires].
  - apply quiet_requestDetachInstance_then.
  - unfold constructor_toDisposable. apply quiet_this. intros s _.
    apply quiet_dispose_each.
Qed.

End Quiet.

(** X15. Once the shutdown flag is set, no series of method calls and
    notifications makes the service dispose an editor input: whatever is
    detached from then on (by a caller, through the active editor or because
    a session disposed itself), its editor input is left alone. *)
Theorem no_dispose_after_shutdown
    (env : Collaborators) (group : TerminalEditorInput → option nat)
    (rs : list Request) (w : World) :
  _isShuttingDown (svc w) = true →
  ∀ input, InputDispose input ∉ effects_all env group rs w.
Proof.
  intros Hw.
  assert (Hall : Forall not_dispose (effects_all env group rs w)).
  { unfold effects_all. generalize false as disposed.
    revert w Hw. induction rs as [|r rs IH]; intros w Hw disposed; [constructor|].
    cbn [effects_from].
    destruct (quiet_perform env group disposed r w Hw) as [He Hf].
    apply Forall_app. split; [done|]. by apply IH. }
  intros input Hmem. rewrite Forall_forall in Hall. exact (Hall _ Hmem).
Qed.

Lemma no_dispose_after_shutdown_witness :
  let w := world (onWillShutdown
                    (world (Sample.two_tabs_first_active initialWorld))) in
  let es := effects_all Sample.env no_group
              [DetachInstance Sample.a; InstanceFires OnDisposed Sample.b;
               DetachActiveEditorInstance (Some (TerminalInput Sample.split_editor))]
              w in
  _isShuttingDown (svc w) = true
  ∧ InputDetachInstance Sample.input_a ∈ es
  ∧ InputDispose Sample.input_a ∉ es.
Proof.
  cbn zeta.
  assert (Hflag : _isShuttingDown
                    (svc (world (onWillShutdown
                                   (world (Sample.two_tabs_first_active
                                             initialWorld))))) = true)
    by (vm_compute; reflexivity).
  split; [exact Hflag|]. split; [vm_compute; repeat constructor|].
  exact (no_dispose_after_shutdown Sample.env no_group
           [DetachInstance Sample.a; InstanceFires OnDisposed Sample.b;
            DetachActiveEditorInstance (Some (TerminalInput Sample.split_editor))]
           (world (onWillShutdown
                     (world (Sample.two_tabs_first_active initialWorld))))
           Hflag Sample.input_a).
Defined.

(** ** An editor input stays until a request writes its key *)

Section KeepsEntry.

Variable env : Collaborators.
Variable group : TerminalEditorInput → option nat.
Variable key : string.
Variable input : TerminalEditorInput.









End KeepsEntry.




(** ** openEditor and splitInstance *)

Lemma getOrCreateResource_uri_run env u split w :
  _editorInputs (svc w) !! path u = None →
  ∃ w' es,
    getOrCreateResource env (AUri u) split w
    = (Returned (IsUri (getTerminalUri env "dfsldjfkdslfsjdflksdjf" 2 (Some "fake"))),
       w', es)
    ∧ svc w' = svc w.
Proof.
  destruct w as [[l ix sd ei lc ids] n t ls pd]. cbn [svc _editorInputs].
  intros H. unfold getOrCreateResource, bind at 1, this at 1.
  cbn [svc _editorInputs fst snd resourceOf]. rewrite H. run.
  destruct (tid_instanceId _) as [id|]; [destruct (negb _)|]; run;
    by eexists _, _.
Qed.

(** X16. openEditor asks the editor service to open something pinned and
    with a forced reload, in the side group exactly when asked to; what it
    opens is settled by the argument and by the editor-input map before the
    call.  An identity that has an editor input: that input, and the store is
    left as it is and nothing is fired.  A URI whose identity has none: the
    placeholder resource (not the URI that was given), and the fields of
    the service are left as they are.  An instance whose identity has none:
    a new editor input for it, which is stored under its resource path while
    the instance is appended to the live list and one session-list-changed
    notification is fired. *)
Theorem openEditor_opens_registry_entry
    (env : Collaborators) (w : World) (x : UriOrInstance)
    (sideGroup : bool) (isFutureSplit : option bool) :
  let r := openEditor env x sideGroup isFutureSplit w in
  let options := mkEditorOptions true true None None in
  let targetGroup := if sideGroup then Some SIDE_GROUP else None in
  match _editorInputs (svc w) !! path (resourceOf (asInstanceOrUri x)), x with
  | Some cachedEditor, _ =>
      r = (Returned (OpenEditorInput cachedEditor options targetGroup), w, [])
  | None, OfUri u =>
      outcome r
      = Returned (OpenResourceEditorInput
                    (getTerminalUri env "dfsldjfkdslfsjdflksdjf" 2 (Some "fake"))
                    options targetGroup)
      ∧ svc (world r) = svc w
  | None, OfInstance i =>
      let input := mkInput (next_ref w) (inst_resource i) (Some i) in
      outcome r = Returned (OpenEditorInput input options targetGroup)
      ∧ getInput (svc (world r)) (inst_resource i) = Some input
      ∧ instances (svc (world r)) = instances (svc w) ++ [i]
      ∧ effects r = [Fire DidChangeInstances]
  end.
Proof.
  cbn zeta. unfold openEditor.
  destruct (_editorInputs (svc w) !! path (resourceOf (asInstanceOrUri x)))
    as [cachedEditor|] eqn:Hcache.
  { unfold bind.
    rewrite (getOrCreateResource_hit env _ false w cachedEditor Hcache). done. }
  destruct x as [u|i]; cbn [asInstanceOrUri resourceOf] in *.
  - destruct (getOrCreateResource_uri_run env u false w Hcache)
      as (w' & es & Hrun & Hsvc).
    unfold bind. rewrite Hrun. done.
  - unfold bind.
    rewrite (getOrCreateResource_instance_run env i false w Hcache). cbn zeta.
    split; [reflexivity|]. split; [apply lookup_insert_eq|]. done.
Qed.

(** openEditor on a URI that the registry does not know opens the
    placeholder, on a URI that it knows the stored editor input. *)
Example openEditor_of_uri :
  outcome (openEditor Sample.env (OfUri Sample.term5) true None initialWorld)
  = Returned (OpenResourceEditorInput
                (Sample.getTerminalUri "dfsldjfkdslfsjdflksdjf" 2 (Some "fake"))
                (mkEditorOptions true true None None) (Some SIDE_GROUP))
  ∧ outcome (openEditor Sample.env (OfUri Sample.term5) false None
               (world (Sample.one_tab initialWorld)))
    = Returned (OpenEditorInput Sample.input_a
                  (mkEditorOptions true true None None) None).
Proof. split; vm_compute; reflexivity. Qed.




(** The group of the session being split is activated when its editor
    input has one, and is not when it has none. *)
Example splitInstance_activates_group :
  let w := world (Sample.one_tab initialWorld) in
  outcome (splitInstance Sample.env (λ _, Some 1%nat) Sample.a
             (mkShellLaunchConfig None) w)
  = Returned (mkInstance 3 1003 (Sample.getTerminalUri "w" 1003 None),
              [ActivateGroup 1;
               OpenEditorInput
                 (mkInput 4 (Sample.getTerminalUri "w" 1003 None)
                    (Some (mkInstance 3 1003 (Sample.getTerminalUri "w" 1003 None))))
                 (mkEditorOptions true true None None) None])
  ∧ outcome (splitInstance Sample.env no_group Sample.a
               (mkShellLaunchConfig None) w)
    = Returned (mkInstance 3 1003 (Sample.getTerminalUri "w" 1003 None),
                [OpenEditorInput
                   (mkInput 4 (Sample.getTerminalUri "w" 1003 None)
                      (Some (mkInstance 3 1003 (Sample.getTerminalUri "w" 1003 None))))
                   (mkEditorOptions true true None None) None]).
Proof. split; vm_compute; reflexivity. Qed.

(** ** Disposal of the service *)

Lemma dispose_each_run values w :
  dispose_each values w
  = (Returned tt,
     mkWorld (svc w) (next_ref w) (targets w)
       (filter (λ l, Forall (λ ds, sub_ref l ∉ sub_ref <$> ds) values) (listeners w))
       (pendingDetach w),
     []).
Proof.
  revert w. induction values as [|d values IH]; intros [s n t ls pd].
  - cbn [dispose_each svc next_ref targets listeners pendingDetach]. unfold ret.
    rewrite filter_keeps_all by (intros; constructor). done.
  - cbn [dispose_each]. unfold bind, dispose at 1. rewrite IH.
    cbn [svc next_ref targets listeners pendingDetach].
    rewrite list_filter_filter.
    rewrite (list_filter_iff _
               (λ l, Forall (λ ds, sub_ref l ∉ sub_ref <$> ds) (d :: values)));
      [done|].
    intros l. rewrite Forall_cons. tauto.
Qed.

Lemma times_forward_disposed_run n ev instance w :
  times n (forward_disposed ev instance) w
  = (Returned tt, w,
     replicate n (Fire (match ev with
                        | OnDidFocus => DidFocusInstance instance
                        | OnDisposed => DidDisposeInstance instance
                        end))).
Proof.
  induction n as [|n IH]; [done|].
  cbn [times replicate]. unfold bind.
  assert (Hrun : forward_disposed ev instance w
                 = (Returned tt, w,
                    [Fire (match ev with
                           | OnDidFocus => DidFocusInstance instance
                           | OnDisposed => DidDisposeInstance instance
                           end)])) by (by destruct ev).
  by rewrite Hrun, IH.
Qed.

Lemma notifications_after_disposal
    (env : Collaborators) (group : TerminalEditorInput → option nat)
    (rs : list Request) (w : World) :
  forallb is_notification rs = true →
  perform_from env group true rs w = w
  ∧ Forall is_forwarded (effects_from env group true rs w).
Proof.
  induction rs as [|r rs IH]; [by split; [|constructor]|].
  cbn [forallb]. intros [Hr Hrs]%andb_true_iff. destruct (IH Hrs) as [IHw IHe].
  cbn [perform_from effects_from orb].
  assert (Hrun : world (perform env group true r w) = w
                 ∧ Forall is_forwarded (effects (perform env group true r w))).
  { destruct r as [x b|u|u|x sg b|i c|pf|i|e|i| |e|es|e|ev i|n p| ];
      try discriminate Hr; cbn [perform]; try (by split; [|constructor]).
    unfold instance_fires_disposed. rewrite times_forward_disposed_run.
    split; [done|]. cbn [effects snd]. apply Forall_replicate.
    exists i. destruct ev; auto. }
  destruct Hrun as [-> He]. split; [done|]. by apply Forall_app.
Qed.

(** X18. [dispose()] on the service, called for the first time: every
    subscription that the subscription map holds is taken off the emitter of
    its session and no other listener on a session is; the fields of the
    service are left as they are (the maps and the live list are not
    cleared) and nothing is fired.  The listeners that the constructor
    registered (lines 64, 65, 73, 89, 93) are removed as well: whatever
    series of notifications of the lifecycle service, of the editor service
    and of sessions follows, and whatever further [dispose()], the store
    stays as the disposal left it, and the only calls the service makes are
    forwards of session events to its focus and dispose emitters. *)
Theorem service_disposal_detaches_subscriptions
    (env : Collaborators) (group : TerminalEditorInput → option nat) (w : World) :
  let r := perform env group false ServiceDisposed w in
  outcome r = Returned tt
  ∧ svc (world r) = svc w
  ∧ effects r = []
  ∧ (∀ l, l ∈ listeners (world r) ↔
          l ∈ listeners w
          ∧ ∀ key ds, _instanceDisposables (svc w) !! key = Some ds →
                      sub_ref l ∉ sub_ref <$> ds)
  ∧ (∀ key ds d, _instanceDisposables (svc w) !! key = Some ds →
                 d ∈ ds → d ∉ listeners (world r))
  ∧ (∀ rs, forallb is_notification rs = true →
           perform_all env group (ServiceDisposed :: rs) w = world r
           ∧ Forall is_forwarded (effects_all env group (ServiceDisposed :: rs) w)).
Proof.
  cbn zeta. cbn [perform].
  assert (Hrun : constructor_toDisposable w
                 = dispose_each ((map_to_list (_instanceDisposables (svc w))).*2) w).
  { unfold constructor_toDisposable, bind, this. cbn [fst snd].
    by destruct (dispose_each _ w) as [[o2 w2] e2]. }
  assert (Hmem : ∀ l, l ∈ filter (λ l, Forall (λ ds, sub_ref l ∉ sub_ref <$> ds)
                                   ((map_to_list (_instanceDisposables (svc w))).*2))
                        (listeners w)
                 ↔ l ∈ listeners w
                   ∧ ∀ key ds, _instanceDisposables (svc w) !! key = Some ds →
                               sub_ref l ∉ sub_ref <$> ds).
  { intros l. rewrite list_elem_of_filter, Forall_forall. split.
    - intros [Hall Hl]. split; [done|]. intros key ds Hds. apply Hall.
      apply list_elem_of_fmap. exists (key, ds). split; [done|].
      by apply elem_of_map_to_list.
    - intros [Hl Hall]. split; [|done]. intros ds Hds.
      apply list_elem_of_fmap in Hds as ([key ds'] & -> & Hds).
      apply elem_of_map_to_list in Hds. by apply (Hall key). }
  assert (Hafter : ∀ rs, forallb is_notification rs = true →
            perform_all env group (ServiceDisposed :: rs) w
            = world (constructor_toDisposable w)
            ∧ Forall is_forwarded
                (effects_all env group (ServiceDisposed :: rs) w)).
  { intros rs Hrs. unfold perform_all, effects_all.
    cbn [perform_from effects_from perform orb is_ServiceDisposed].
    destruct (notifications_after_disposal env group rs
                (world (constructor_toDisposable w)) Hrs) as [Hw He].
    split; [done|]. apply Forall_app. split; [|done].
    rewrite Hrun, dispose_each_run. constructor. }
  revert Hafter.
  rewrite Hrun, dispose_each_run. cbn [outcome world effects fst snd svc listeners].
  intros Hafter.
  split; [done|]. split; [done|]. split; [done|]. split; [exact Hmem|].
  split; [|exact Hafter].
  intros key ds d Hds Hd Hlive. apply Hmem in Hlive as [_ Hall].
  apply (Hall key ds Hds). by apply list_elem_of_fmap_2.
Qed.

Lemma service_disposal_detaches_subscriptions_witness :
  let w := world (Sample.two_tabs_first_active initialWorld) in
  let w' := world (perform Sample.env no_group false ServiceDisposed w) in
  mkDisposable 2 OnDisposed 100 ∈ listeners w
  ∧ (mkDisposable 2 OnDisposed 100 ∉ listeners w')
  ∧ perform_all Sample.env no_group
      [ServiceDisposed; WillShutdown; InstanceFires OnDisposed Sample.a;
       EditorClosed (TerminalInput Sample.input_a)] w = w'.
Proof.
  cbn zeta.
  destruct (service_disposal_detaches_subscriptions Sample.env no_group
              (world (Sample.two_tabs_first_active initialWorld)))
    as (_ & _ & _ & _ & Hgone & Hafter).
  split; [vm_compute; repeat constructor|]. split.
  - apply (Hgone "/window1/5"
                 [mkDisposable 1 OnDidFocus 100; mkDisposable 2 OnDisposed 100]).
    + vm_compute. reflexivity.
    + repeat constructor.
  - apply (Hafter [WillShutdown; InstanceFires OnDisposed Sample.a;
                   EditorClosed (TerminalInput Sample.input_a)]).
    reflexivity.
Defined.

(** ** A terminal editor that moves to another group *)

Lemma onDidCloseEditor_run inp instance w :
  terminalInstance inp = Some instance →
  onDidCloseEditor (TerminalInput inp) w
  = (Returned tt,
     mkWorld
       (mkService
          (remove_at (findIndex (same_object instance) (instances (svc w)))
                     (instances (svc w)))
          (_activeInstanceIndex (svc w)) (_isShuttingDown (svc w))
          (_editorInputs (svc w)) (_launchConfigs (svc w))
          (_instanceDisposables (svc w)))
       (next_ref w) (targets w) (listeners w) (pendingDetach w),
     []).
Proof.
  intros Hinst. unfold onDidCloseEditor. rewrite Hinst.
  destruct w as [[l ix sd ei lc ids] n t ls pd]. run. done.
Qed.

(** X19. Dragging a terminal editor to another group shows up as a
    tab-close notification followed by a visible-editors-changed
    notification.  When the session of the closed editor is then the first
    unknown one among the visible editors, the two listeners together move
    the session to the end of the live list and store the editor under the
    resource path of the session; the subscription map and the attached
    listeners are untouched and no notification is fired.  If the editor was
    the registered editor input of the session, the editor-input map is as
    before. *)
Theorem close_then_visible_moves_session
    (w : World) (inp : TerminalEditorInput) (instance : ITerminalInstance)
    (visibleEditors : list IEditorInput) :
  let l' := remove_at (findIndex (same_object instance) (instances (svc w)))
                      (instances (svc w)) in
  terminalInstance inp = Some instance →
  first_unknown (instanceId <$> l') visibleEditors = Some (inp, instance) →
  let r1 := onDidCloseEditor (TerminalInput inp) w in
  let r2 := onDidVisibleEditorsChange visibleEditors (world r1) in
  let s := svc w in
  let s2 := svc (world r2) in
  instances s2 = l' ++ [instance]
  ∧ _editorInputs s2 = <[path (inst_resource instance) := inp]> (_editorInputs s)
  ∧ (_editorInputs s !! path (inst_resource instance) = Some inp →
     _editorInputs s2 = _editorInputs s)
  ∧ _instanceDisposables s2 = _instanceDisposables s
  ∧ listeners (world r2) = listeners w
  ∧ effects r1 = []
  ∧ effects r2 = [].
Proof.
  cbn zeta. intros Hinst Hfirst.
  rewrite (onDidCloseEditor_run inp instance w Hinst).
  rewrite onDidVisibleEditorsChange_run.
  cbn [world effects fst snd svc instances]. rewrite Hfirst.
  cbn [world effects fst snd svc instances _editorInputs _instanceDisposables
       listeners].
  repeat (split; [done|]). split; [|done].
  intros Hsame. by apply insert_id.
Qed.

Lemma close_then_visible_moves_session_witness :
  let w := world (Sample.two_tabs_first_active initialWorld) in
  let r1 := onDidCloseEditor (TerminalInput Sample.input_a) w in
  let r2 := onDidVisibleEditorsChange [TerminalInput Sample.input_a] (world r1) in
  instances (svc w) = [Sample.a; Sample.b]
  ∧ instances (svc (world r2)) = [Sample.b; Sample.a]
  ∧ _editorInputs (svc (world r2)) = _editorInputs (svc w).
Proof.
  cbn zeta.
  destruct (close_then_visible_moves_session
              (world (Sample.two_tabs_first_active initialWorld))
              Sample.input_a Sample.a [TerminalInput Sample.input_a])
    as (Hl & _ & Hmap & _); [reflexivity | vm_compute; reflexivity |].
  split; [vm_compute; reflexivity|]. split.
  - rewrite Hl. vm_compute. reflexivity.
  - apply Hmap. vm_compute. reflexivity.
Defined.

(** ** The events of a registered session *)

Lemma register_then_detach_run env instance split w :
  _editorInputs (svc w) !! path (inst_resource instance) = None →
  _instanceDisposables (svc w) !! path (inst_resource instance) = None →
  occurrences instance (instances (svc w)) = 0%nat →
  Forall (λ d, (sub_ref d < next_ref w)%nat) (listeners w) →
  let input := mkInput (next_ref w) (inst_resource instance) (Some instance) in
  detachInstance instance
    (world (getOrCreateResource env (AnInstance instance) split w))
  = (Returned tt,
     mkWorld (svc w) (S (S (S (next_ref w))))
             (<[inst_ref instance := Editor]> (targets w))
             (listeners w) (pendingDetach w),
     InputDetachInstance input
       :: (if _isShuttingDown (svc w) then [] else [InputDispose input])
       ++ [Fire DidChangeInstances]).
Proof.
  intros Hin Hds Hocc Hfresh. cbn zeta.
  rewrite (getOrCreateResource_instance_run env instance split w Hin). cbn zeta.
  rewrite detachInstance_run. cbn zeta.
  destruct w as [[l ix sd ei lc ids] n t ls pd].
  cbn [svc _editorInputs _instanceDisposables instances next_ref listeners] in *.
  run. rewrite !lookup_insert_eq.
  rewrite (remove_at_last instance l Hocc).
  rewrite !delete_insert_eq, (delete_id _ _ Hin), (delete_id _ _ Hds).
  rewrite dispose_fresh; [done|].
  intros d Hd. rewrite Forall_forall in Hfresh. specialize (Hfresh d Hd). cbn.
  intros Hmem. repeat (apply elem_of_cons in Hmem as [Hmem|Hmem]; [lia|]).
  by apply elem_of_nil in Hmem.
Qed.

Lemma attached_after_register ev instance ls n :
  attached ev instance ls = [] →
  attached ev instance
    (ls ++ [mkDisposable (S n) OnDidFocus (inst_ref instance);
            mkDisposable (S (S n)) OnDisposed (inst_ref instance)])
  = match ev with
    | OnDidFocus => [mkDisposable (S n) OnDidFocus (inst_ref instance)]
    | OnDisposed => [mkDisposable (S (S n)) OnDisposed (inst_ref instance)]
    end.
Proof.
  intros Hnone. unfold attached in *. rewrite filter_app, Hnone. cbn [app].
  destruct ev.
  - rewrite filter_cons_True by done.
    rewrite filter_cons_False by (cbn; intros [? _]; done). done.
  - rewrite filter_cons_False by (cbn; intros [? _]; done).
    rewrite filter_cons_True by done. done.
Qed.

(** X20. The two subscriptions of a registration do what they are for.
    After getOrCreateResource has registered a session that nothing was
    subscribed to, a focus event of the session is forwarded once as the
    focus notification of the service and changes nothing, and a dispose
    event of the session detaches it: the registry and the listeners are
    back as they were before the registration, the editor input is detached
    and disposed (not disposed while shutting down), and the dispose
    notification of the service is fired last, after the
    session-list-changed notification. *)
Theorem registered_session_events
    (env : Collaborators) (w : World) (instance : ITerminalInstance) (split : bool) :
  _editorInputs (svc w) !! path (inst_resource instance) = None →
  _instanceDisposables (svc w) !! path (inst_resource instance) = None →
  occurrences instance (instances (svc w)) = 0%nat →
  Forall (λ d, (sub_ref d < next_ref w)%nat) (listeners w) →
  (∀ ev, attached ev instance (listeners w) = []) →
  let w1 := world (getOrCreateResource env (AnInstance instance) split w) in
  let input := mkInput (next_ref w) (inst_resource instance) (Some instance) in
  let r := instance_fires OnDisposed instance w1 in
  instance_fires OnDidFocus instance w1
  = (Returned tt, w1, [Fire (DidFocusInstance instance)])
  ∧ outcome r = Returned tt
  ∧ svc (world r) = svc w
  ∧ listeners (world r) = listeners w
  ∧ effects r
    = InputDetachInstance input
        :: (if _isShuttingDown (svc w) then [] else [InputDispose input])
        ++ [Fire DidChangeInstances; Fire (DidDisposeInstance instance)].
Proof.
  intros Hin Hds Hocc Hfresh Hnone. cbn zeta.
  pose proof (register_then_detach_run env instance split w Hin Hds Hocc Hfresh)
    as Hdetach. cbn zeta in Hdetach.
  assert (Hls : listeners (world (getOrCreateResource env (AnInstance instance)
                                    split w))
                = listeners w
                    ++ [mkDisposable (S (next_ref w)) OnDidFocus (inst_ref instance);
                        mkDisposable (S (S (next_ref w))) OnDisposed
                                     (inst_ref instance)]).
  { by rewrite (getOrCreateResource_instance_run env instance split w Hin). }
  revert Hdetach Hls.
  generalize (world (getOrCreateResource env (AnInstance instance) split w)).
  intros w1 Hdetach Hls. unfold instance_fires. rewrite Hls.
  rewrite !attached_after_register by apply Hnone.
  cbn [length times forward]. split.
  - unfold bind, emit, ret. done.
  - unfold bind. rewrite fire_onDidDisposeInstance_run, Hdetach.
    cbn [outcome world effects fst snd svc listeners]. unfold ret. cbn [fst snd].
    repeat (split; [done|]).
    rewrite app_nil_r. cbn. rewrite <- app_assoc. done.
Qed.

Lemma registered_session_events_witness :
  let w1 := world (getOrCreateResource Sample.env (AnInstance Sample.b) false
                     (world (Sample.one_tab initialWorld))) in
  instance_fires OnDidFocus Sample.b w1
  = (Returned tt, w1, [Fire (DidFocusInstance Sample.b)])
  ∧ svc (world (instance_fires OnDisposed Sample.b w1))
    = svc (world (Sample.one_tab initialWorld)).
Proof.
  cbn zeta.
  destruct (registered_session_events Sample.env
              (world (Sample.one_tab initialWorld)) Sample.b false)
    as (Hfocus & _ & Hsvc & _);
    [vm_compute; reflexivity | vm_compute; reflexivity | vm_compute; reflexivity
    | vm_compute; repeat constructor
    | intros []; vm_compute; reflexivity |].
  split; [exact Hfocus|exact Hsvc].
Defined.

(** ** revealActiveEditor *)

(** X21. revealActiveEditor never writes the registry.  Without an active
    session it asks nothing of the editor service.  After a session has been
    opened with getOrCreateResource and made active, it asks the editor
    service to open the editor input of that session, the one the opening
    call returned, pinned, with a forced reload, with the given focus
    preference and the PRESERVE activation, in the group of that input. *)
Theorem revealActiveEditor_after_activate
    (env : Collaborators) (group : TerminalEditorInput → option nat)
    (w : World) (instance : ITerminalInstance) (split : bool)
    (preserveFocus : option bool) :
  _editorInputs (svc w) !! path (inst_resource instance) = None →
  occurrences instance (instances (svc w)) = 0%nat →
  let w1 := world (getOrCreateResource env (AnInstance instance) split w) in
  let w2 := world (setActiveInstance instance w1) in
  let input := mkInput (next_ref w) (inst_resource instance) (Some instance) in
  (∀ w0, activeInstance (svc w0) = None →
         revealActiveEditor group preserveFocus w0 = (Returned None, w0, []))
  ∧ (∀ w0, world (revealActiveEditor group preserveFocus w0) = w0)
  ∧ activeInstance (svc w2) = Some instance
  ∧ revealActiveEditor group preserveFocus w2
    = (Returned (Some (OpenEditorInput input
                         (mkEditorOptions true true preserveFocus (Some PRESERVE))
                         (InGroup <$> group input))),
       w2, []).
Proof.
  intros Hin Hocc. cbn zeta.
  split.
  { intros w0 Hnone. unfold revealActiveEditor, bind, this. cbn [fst snd].
    by rewrite Hnone. }
  split; [apply revealActiveEditor_world|].
  rewrite (getOrCreateResource_instance_run env instance split w Hin). cbn zeta.
  cbn [world fst snd]. rewrite setActiveInstance_run. cbn zeta. cbn [world fst snd].
  cbn [svc instances].
  set (s2 := set_activeInstanceIndex _ _).
  assert (Hact : activeInstance s2 = Some instance).
  { subst s2. apply length_zero_iff_nil in Hocc.
    unfold activeInstance, findIndex, index. cbn.
    rewrite (find_index_app_last _ _ instance Hocc (same_object_refl instance)).
    rewrite length_app. cbn.
    destruct (Z.eqb_spec (Z.of_nat (length (instances (svc w)) + 1)) 0) as [?|_];
      [lia|].
    destruct (Z.eqb_spec (Z.of_nat (length (instances (svc w)))) (-1)) as [?|_];
      [lia|].
    destruct (Z.ltb_spec (Z.of_nat (length (instances (svc w)))) 0) as [?|_]; [lia|].
    cbn. rewrite Nat2Z.id. by rewrite list_lookup_middle. }
  assert (Hentry : _editorInputs s2 !! path (inst_resource instance)
                   = Some (mkInput (next_ref w) (inst_resource instance)
                                   (Some instance))).
  { subst s2. cbn. apply lookup_insert_eq. }
  clearbody s2. split; [exact Hact|].
  unfold revealActiveEditor, bind, this. cbn [svc fst snd].
  rewrite Hact, Hentry. done.
Qed.

Lemma revealActiveEditor_after_activate_witness :
  let w2 := world (setActiveInstance Sample.a (world (Sample.one_tab initialWorld))) in
  revealActiveEditor no_group (Some true) w2
  = (Returned (Some (OpenEditorInput Sample.input_a
                       (mkEditorOptions true true (Some true) (Some PRESERVE))
                       None)),
     w2, []).
Proof.
  cbn zeta.
  destruct (revealActiveEditor_after_activate Sample.env no_group initialWorld
              Sample.a false (Some true))
    as (_ & _ & _ & H); [vm_compute; reflexivity | vm_compute; reflexivity |].
  exact H.
Defined.

Lemma getInstance_registers_nothing_witness :
  let w := world (requestDetachInstance_then 0 None
                    (world (getOrCreateResource Sample.env (AUri Sample.term5)
                              false initialWorld))) in
  getInstance Sample.env Sample.term6 w = (Returned None, w, [])
  ∧ outcome (getInstance Sample.env Sample.term5 w)
    = Returned (Some (mkInstance 0 1000 Sample.term5))
  ∧ instances (svc (world (getInstance Sample.env Sample.term5 w))) = [].
Proof.
  cbn zeta.
  destruct (getInstance_registers_nothing Sample.env
              (world (requestDetachInstance_then 0 None
                        (world (getOrCreateResource Sample.env (AUri Sample.term5)
                                  false initialWorld))))
              Sample.term6)
    as (_ & _ & _ & Hnone & _).
  destruct (getInstance_registers_nothing Sample.env
              (world (requestDetachInstance_then 0 None
                        (world (getOrCreateResource Sample.env (AUri Sample.term5)
                                  false initialWorld))))
              Sample.term5)
    as (Hsvc & _ & _ & _ & Hsome).
  split; [apply Hnone; vm_compute; reflexivity|].
  destruct (Hsome (mkCreateTerminalOptions
                     (Some (mkShellLaunchConfig (Some (FromBackend None))))
                     (Some Editor)))
    as (Hout & _); [vm_compute; reflexivity|].
  split.
  - rewrite Hout. vm_compute. reflexivity.
  - rewrite Hsvc. vm_compute. reflexivity.
Defined.

(** ** getOrCreateResource only appends *)

Lemma getOrCreateResource_uri_world env u split w :
  _editorInputs (svc w) !! path u = None →
  ∃ pending es,
    getOrCreateResource env (AUri u) split w
    = (Returned (IsUri (getTerminalUri env "dfsldjfkdslfsjdflksdjf" 2 (Some "fake"))),
       mkWorld (svc w) (next_ref w) (targets w) (listeners w) pending, es).
Proof.
  destruct w as [[l ix sd ei lc ids] n t ls pd]. cbn [svc _editorInputs].
  intros H. unfold getOrCreateResource, bind at 1, this at 1.
  cbn [svc _editorInputs fst snd resourceOf]. rewrite H. run.
  destruct (tid_instanceId _) as [id|]; [destruct (negb _)|]; run;
    by eexists _, _.
Qed.

(** X22. getOrCreateResource only ever adds: the sessions of the live list
    and the attached listeners stay where they are (at most one session and
    two listeners are appended behind them), the entries of both maps under
    every other identity, the launch configurations, the stored active index
    and the shutdown flag are unchanged. *)
Theorem getOrCreateResource_only_appends
    (env : Collaborators) (w : World) (a : InstanceOrUri) (split : bool) :
  let r := getOrCreateResource env a split w in
  let s := svc w in
  let s' := svc (world r) in
  (∀ key, key ≠ path (resourceOf a) →
     _editorInputs s' !! key = _editorInputs s !! key
     ∧ _instanceDisposables s' !! key = _instanceDisposables s !! key)
  ∧ _launchConfigs s' = _launchConfigs s
  ∧ _activeInstanceIndex s' = _activeInstanceIndex s
  ∧ _isShuttingDown s' = _isShuttingDown s
  ∧ (∃ new, instances s' = instances s ++ new ∧ (length new ≤ 1)%nat)
  ∧ (∃ new, listeners (world r) = listeners w ++ new ∧ (length new ≤ 2)%nat).
Proof.
  cbn zeta.
  destruct (_editorInputs (svc w) !! path (resourceOf a)) as [cachedEditor|]
    eqn:Hcache.
  { rewrite (getOrCreateResource_hit env a split w cachedEditor Hcache).
    cbn [world fst snd]. repeat (split; [done|]).
    split; exists []; (split; [by rewrite app_nil_r|cbn; lia]). }
  destruct a as [i|d|u]; cbn [resourceOf] in *.
  - rewrite (getOrCreateResource_instance_run env i split w Hcache). cbn zeta.
    cbn [world fst snd svc instances listeners _editorInputs _instanceDisposables
         _launchConfigs _activeInstanceIndex _isShuttingDown].
    split; [intros key Hkey; by rewrite !lookup_insert_ne|].
    repeat (split; [done|]). split; eexists; split; try reflexivity; cbn; lia.
  - rewrite (getOrCreateResource_deserialized_run env d split w Hcache). cbn zeta.
    cbn [world fst snd svc instances listeners _editorInputs _instanceDisposables
         _launchConfigs _activeInstanceIndex _isShuttingDown].
    split; [intros key Hkey; by rewrite !lookup_insert_ne|].
    repeat (split; [done|]). split; eexists; split; try reflexivity; cbn; lia.
  - destruct (getOrCreateResource_uri_world env u split w Hcache)
      as (pending & es & ->).
    cbn [world fst snd svc listeners]. repeat (split; [done|]).
    split; exists []; (split; [by rewrite app_nil_r|cbn; lia]).
Qed.

Lemma getOrCreateResource_only_appends_witness :
  let w := world (Sample.one_tab initialWorld) in
  let r := getOrCreateResource Sample.env (AnInstance Sample.b) false w in
  _editorInputs (svc (world r)) !! path Sample.term5
  = _editorInputs (svc w) !! path Sample.term5.
Proof.
  cbn zeta.
  destruct (getOrCreateResource_only_appends Sample.env
              (world (Sample.one_tab initialWorld)) (AnInstance Sample.b) false)
    as (Hmaps & _).
  apply Hmaps. vm_compute. discriminate.
Defined.
